(** * Excel validator: a shallow embedding of the two validators

    [excel_validator.py] (class [ExcelValidator], the generic rule engine) and
    [excel_validator_web.py] (class [EcommerceValidator], the pricing and tax
    checks) are embedded as Rocq functions, together with the part of the
    Python runtime they call: the string methods, [float], [int], [str],
    [repr], the two [re] patterns and the f-string formats.

    Modelling conventions.
    - A Python [str] is a [string]; a non-ASCII character is the run of its
      UTF-8 bytes (the rupee sign is three bytes).  The character classes of
      the runtime (digit, word character, white space) are those of the
      ASCII range: no byte above 127 is in any of them.
    - A Python [float] is an IEEE-754 binary64 value, a [spec_float] with
      precision 53 and maximal exponent 1024; conversions from and to
      decimal strings round correctly.
    - A cell of the table is a string, an integer or a float, as the
      specification has it; the NaN float marks an empty cell.
    - A raised exception is a value of [exn].  A statement is a function
      from the list of records accumulated so far to the list after it and
      the exception raised or the value returned.  The two validator objects
      are records; a method takes the object and returns the object after
      the call, with the exception that ended the call, if any.
    - The loading of the file, the printing of the results and the browser
      pages are not modelled. *)

From Stdlib Require Import ZArith String Ascii List Bool Lia SpecFloat Sorted.
Import ListNotations.
Open Scope string_scope.
Open Scope Z_scope.

(** ** Python strings *)

Module PyStr.

(** [c in "0123456789"] *)
Definition is_digit (c : ascii) : bool :=
  let n := nat_of_ascii c in (48 <=? n)%nat && (n <=? 57)%nat.

Definition is_alpha (c : ascii) : bool :=
  let n := nat_of_ascii c in
  ((65 <=? n)%nat && (n <=? 90)%nat) || ((97 <=? n)%nat && (n <=? 122)%nat).

(** [\w]: letters, digits and the underscore. *)
Definition is_word (c : ascii) : bool :=
  is_alpha c || is_digit c || Ascii.eqb c "_".

(** [str.isspace] on one character: tab to carriage return, the four
    separators 28..31, and the space. *)
Definition is_space (c : ascii) : bool :=
  let n := nat_of_ascii c in
  ((9 <=? n)%nat && (n <=? 13)%nat) || ((28 <=? n)%nat && (n <=? 31)%nat)
  || (n =? 32)%nat.

Fixpoint forallb (p : ascii -> bool) (s : string) : bool :=
  match s with
  | EmptyString => true
  | String c s' => p c && forallb p s'
  end.


(** [s.isdigit()]: at least one character, and all of them digits. *)
Definition isdigit (s : string) : bool :=
  match s with
  | EmptyString => false
  | _ => forallb is_digit s
  end.

(** [s.replace(old, new)] scans left to right and replaces the occurrences
    that do not overlap; [skip] counts the characters of a replaced
    occurrence still to be dropped.  With an empty [old], [new] is put
    before every character and at the end. *)
Fixpoint replace_from (old new : string) (skip : nat) (s : string) : string :=
  match s with
  | EmptyString => match old with EmptyString => new | _ => EmptyString end
  | String c s' =>
      match skip with
      | S n => replace_from old new n s'
      | O =>
          match old with
          | EmptyString => new ++ String c (replace_from old new O s')
          | String _ old' =>
              if prefix old s
              then new ++ replace_from old new (String.length old') s'
              else String c (replace_from old new O s')
          end
      end
  end.

Definition replace (old new s : string) : string := replace_from old new O s.

(** Dropping the characters of a class at the start and at the end; at the
    end, a character is kept when it is not in the class or when something
    is left after it. *)
Fixpoint lstrip_with (p : ascii -> bool) (s : string) : string :=
  match s with
  | String c s' => if p c then lstrip_with p s' else s
  | EmptyString => EmptyString
  end.

Fixpoint rstrip_with (p : ascii -> bool) (s : string) : string :=
  match s with
  | EmptyString => EmptyString
  | String c s' =>
      match rstrip_with p s' with
      | EmptyString => if p c then EmptyString else String c EmptyString
      | r => String c r
      end
  end.

Definition strip_with (p : ascii -> bool) (s : string) : string :=
  rstrip_with p (lstrip_with p s).

(** [s.strip()] *)
Definition strip (s : string) : string := strip_with is_space s.

Fixpoint contains (c : ascii) (s : string) : bool :=
  match s with
  | EmptyString => false
  | String a s' => Ascii.eqb a c || contains c s'
  end.

(** The string without the character [c], and the number of its
    occurrences. *)
Fixpoint remove_all (c : ascii) (s : string) : string :=
  match s with
  | EmptyString => EmptyString
  | String a s' => if Ascii.eqb a c then remove_all c s'
                   else String a (remove_all c s')
  end.

Fixpoint count (c : ascii) (s : string) : nat :=
  match s with
  | EmptyString => O
  | String a s' => (if Ascii.eqb a c then 1 else 0) + count c s'
  end.

Fixpoint join (sep : string) (l : list string) : string :=
  match l with
  | [] => EmptyString
  | [x] => x
  | x :: r => x ++ sep ++ join sep r
  end.

Definition dquote : ascii := ascii_of_nat 34.
Definition newline : ascii := ascii_of_nat 10.

Definition hex_digit (n : nat) : ascii :=
  ascii_of_nat (if (n <? 10)%nat then 48 + n else 87 + n).

(** One character of [repr(s)] inside the quote [q]. *)
Definition repr_char (q c : ascii) : string :=
  let n := nat_of_ascii c in
  if Ascii.eqb c "\" then "\\"
  else if Ascii.eqb c q then String "\" (String c EmptyString)
  else if (n =? 9)%nat then "\t"
  else if (n =? 10)%nat then "\n"
  else if (n =? 13)%nat then "\r"
  else if (n <? 32)%nat || (n =? 127)%nat
       then String "\" (String "x" (String (hex_digit (n / 16))
                                      (String (hex_digit (n mod 16)) EmptyString)))
  else String c EmptyString.

Fixpoint repr_chars (q : ascii) (s : string) : string :=
  match s with
  | EmptyString => EmptyString
  | String c s' => repr_char q c ++ repr_chars q s'
  end.

(** [repr(s)]: single quotes, unless [s] has a single quote and no double
    quote. *)
Definition repr (s : string) : string :=
  let q : ascii := if contains "'" s && negb (contains dquote s)
                   then dquote else "'"%char in
  String q (repr_chars q s ++ String q EmptyString).

(** [str(n)] of an integer. *)
Fixpoint digits_of_pos (fuel : nat) (n : Z) (acc : string) : string :=
  match fuel with
  | O => acc
  | S f =>
      let acc' := String (ascii_of_nat (48 + Z.to_nat (n mod 10))) acc in
      if n <? 10 then acc' else digits_of_pos f (n / 10) acc'
  end.

Definition of_Z (n : Z) : string :=
  match n with
  | Z0 => "0"
  | Zpos _ => digits_of_pos (S (Z.to_nat (Z.log2 n))) n EmptyString
  | Zneg _ => String "-" (digits_of_pos (S (Z.to_nat (Z.log2 (- n)))) (- n) EmptyString)
  end.

End PyStr.

(** ** Exceptions *)

Inductive exn : Type :=
| ValueError (msg : string)
| OverflowError (msg : string)
| KeyError (key : string)
| TypeError (msg : string)
| AttributeError (msg : string).

(** [str(e)]: the message; a [KeyError] prints the [repr] of its key. *)
Definition str_exn (e : exn) : string :=
  match e with
  | ValueError m | OverflowError m | TypeError m | AttributeError m => m
  | KeyError k => PyStr.repr k
  end.

(** ** Python floats *)

Module PyFloat.

Definition prec : Z := 53.
Definition emax : Z := 1024.

Definition float : Type := spec_float.

Definition isnan (x : float) : bool :=
  match x with S754_nan => true | _ => false end.

(** [x < y], [x <= y], [x > y], [x >= y]: all false when an operand is a
    NaN. *)
Definition ltb (x y : float) : bool := SFltb x y.
Definition leb (x y : float) : bool := SFleb x y.
Definition gtb (x y : float) : bool := SFltb y x.
Definition geb (x y : float) : bool := SFleb y x.

Definition mul (x y : float) : float := SFmul prec emax x y.

(** The float nearest to an integer (ties to even). *)
Definition of_Z (n : Z) : float := binary_normalize prec emax n 0 false.

(** The float nearest to [(-1)^neg * m * 10^e10]. *)
Definition of_decimal (neg : bool) (m e10 : Z) : float :=
  match m with
  | Zpos p =>
      if 0 <=? e10
      then binary_round prec emax neg (p * Z.to_pos (10 ^ e10))%positive 0
      else SFdiv prec emax (S754_finite neg p 0)
                           (S754_finite false (Z.to_pos (10 ^ (- e10))) 0)
  | _ => S754_zero neg
  end.

(** Comparison of a float with an integer, on their exact values, as
    Python compares a [float] with an [int]. *)
Definition compare_Z (x : float) (n : Z) : option comparison :=
  match x with
  | S754_nan => None
  | S754_infinity s => Some (if s then Lt else Gt)
  | S754_zero _ => Some (0 ?= n)
  | S754_finite s m e =>
      let v := if s then Zneg m else Zpos m in
      Some (if 0 <=? e then (v * 2 ^ e ?= n) else (v ?= n * 2 ^ (- e)))
  end.

(** [x] is at least [n], and [x] is below [n], on the exact values. *)
Definition at_least (x : float) (n : Z) : Prop :=
  compare_Z x n = Some Eq \/ compare_Z x n = Some Gt.

Definition below (x : float) (n : Z) : Prop :=
  compare_Z x n = Some Lt.

Definition ltb_Z (x : float) (n : Z) : bool :=
  match compare_Z x n with Some Lt => true | _ => false end.
Definition gtb_Z (x : float) (n : Z) : bool :=
  match compare_Z x n with Some Gt => true | _ => false end.

(** [int(x)]: truncation towards zero; a NaN and the infinities raise. *)
Definition to_int (x : float) : exn + Z :=
  match x with
  | S754_nan => inl (ValueError "cannot convert float NaN to integer")
  | S754_infinity _ => inl (OverflowError "cannot convert float infinity to integer")
  | S754_zero _ => inr 0
  | S754_finite s m e =>
      let a := if 0 <=? e then Zpos m * 2 ^ e else Zpos m / 2 ^ (- e) in
      inr (if s then - a else a)
  end.

(** *** [float(s)] on a string *)

Definition digit_val (c : ascii) : Z := Z.of_nat (nat_of_ascii c) - 48.

(** Reads a run of digits: the value read so far, the number of digits, and
    what is left. *)
Fixpoint span_digits (acc : Z) (n : nat) (s : string) : Z * nat * string :=
  match s with
  | String c s' =>
      if PyStr.is_digit c then span_digits (10 * acc + digit_val c) (S n) s'
      else (acc, n, s)
  | EmptyString => (acc, n, s)
  end.

(** An underscore is allowed between two digits only; the underscores are
    then dropped. *)
Fixpoint drop_underscores (prev : ascii) (s : string) : option string :=
  match s with
  | EmptyString => if Ascii.eqb prev "_" then None else Some EmptyString
  | String c s' =>
      if Ascii.eqb c "_"
      then if PyStr.is_digit prev then drop_underscores c s' else None
      else if Ascii.eqb prev "_" && negb (PyStr.is_digit c) then None
      else option_map (String c) (drop_underscores c s')
  end.

Definition lower_char (c : ascii) : ascii :=
  let n := nat_of_ascii c in
  if (65 <=? n)%nat && (n <=? 90)%nat then ascii_of_nat (n + 32) else c.

Fixpoint lower (s : string) : string :=
  match s with
  | EmptyString => EmptyString
  | String c s' => String (lower_char c) (lower s')
  end.

(** An optional sign: whether it is a minus, and what follows. *)
Definition read_sign (s : string) : bool * string :=
  match s with
  | String "-" r => (true, r)
  | String "+" r => (false, r)
  | _ => (false, s)
  end.

(** The exponent part: nothing, or [e] or [E], an optional sign and at least
    one digit, up to the end of the string. *)
Definition read_exponent (s : string) : option Z :=
  match s with
  | EmptyString => Some 0
  | String c r =>
      if Ascii.eqb (lower_char c) "e"
      then let '(neg, r1) := read_sign r in
           match span_digits 0 0 r1 with
           | (_, O, _) => None
           | (v, _, EmptyString) => Some (if neg then - v else v)
           | _ => None
           end
      else None
  end.

(** Digits, an optional point and digits, an optional exponent; at least one
    digit before the exponent. *)
Definition read_decimal (neg : bool) (s : string) : option float :=
  let '(ip, ni, r1) := span_digits 0 0 s in
  let '(m, nf, r2) :=
    match r1 with
    | String "." r => span_digits ip 0 r
    | _ => (ip, O, r1)
    end in
  match (ni + nf)%nat with
  | O => None
  | _ => match read_exponent r2 with
         | Some e => Some (of_decimal neg m (e - Z.of_nat nf))
         | None => None
         end
  end.

(** The white space that [float] skips around an ASCII literal: tab to
    carriage return, and the space. *)
Definition is_cspace (c : ascii) : bool :=
  let n := nat_of_ascii c in ((9 <=? n)%nat && (n <=? 13)%nat) || (n =? 32)%nat.

Definition parse (s : string) : option float :=
  match drop_underscores " " (PyStr.strip_with is_cspace s) with
  | None => None
  | Some t =>
      let '(neg, r) := read_sign t in
      let l := lower r in
      if String.eqb l "inf" || String.eqb l "infinity" then Some (S754_infinity neg)
      else if String.eqb l "nan" then Some S754_nan
      else read_decimal neg r
  end.

(** [float(s)] raises [ValueError] when [s] is not a float literal. *)
Definition of_string (s : string) : exn + float :=
  match parse s with
  | Some x => inr x
  | None => inl (ValueError ("could not convert string to float: " ++ PyStr.repr s))
  end.

(** *** [repr(x)] and the [,.2f] format *)

(** [floor (log10 (n / d))] for positive [n] and [d], from an estimate on
    the binary logarithms corrected by comparison. *)
Definition ilog10 (n d : Z) : Z :=
  let p := ((Z.log2 n - Z.log2 d) * 30103) / 100000 in
  let le10 (q : Z) := (* 10^q <= n/d *)
    if 0 <=? q then d * 10 ^ q <=? n else d <=? n * 10 ^ (- q) in
  if le10 (p + 1) then p + 1 else if le10 p then p else p - 1.

(** The decimal [c * 10^q] read back as a float. *)
Definition reads_back (x : float) (c q : Z) : bool :=
  match x, of_decimal false c q with
  | S754_finite _ m e, S754_finite _ m' e' => Pos.eqb m m' && Z.eqb e e'
  | _, _ => false
  end.

(** The shortest decimal that reads back as [m * 2^e]: for each number of
    digits [k], the two [k]-digit decimals around the value are tried, the
    nearer one first.  Returns the digits as an integer and the power of
    ten. *)
Fixpoint shortest (fuel : nat) (k : Z) (x : float) (n d p : Z) : Z * Z :=
  let q := p - k + 1 in
  let sn := if 0 <=? q then n else n * 10 ^ (- q) in
  let sd := if 0 <=? q then d * 10 ^ q else d in
  let lo := sn / sd in
  let r := sn mod sd in
  let lo_first := (2 * r <? sd) || ((2 * r =? sd) && Z.even lo) in
  let c1 := if lo_first then lo else lo + 1 in
  let c2 := if lo_first then lo + 1 else lo in
  match fuel with
  | O => (c1, q)
  | S f =>
      if reads_back x c1 q then (c1, q)
      else if reads_back x c2 q then (c2, q)
      else shortest f (k + 1) x n d p
  end.

(** Drops the zeros at the end of the digits, raising the power of ten. *)
Fixpoint trim_zeros (fuel : nat) (c q : Z) : Z * Z :=
  match fuel with
  | O => (c, q)
  | S f => if (c mod 10 =? 0) && negb (c =? 0) then trim_zeros f (c / 10) (q + 1)
           else (c, q)
  end.

Fixpoint zeros (n : nat) : string :=
  match n with O => EmptyString | S n' => String "0" (zeros n') end.

Definition take (n : nat) (s : string) : string := substring 0 n s.
Definition drop (n : nat) (s : string) : string := substring n (String.length s - n) s.

(** The digits [ds] with the decimal point after the first [decpt] of them,
    as [repr] lays them out: plain notation for [-4 < decpt <= 16], with a
    digit after the point; else one digit, the others, and an exponent of at
    least two digits. *)
Definition layout (ds : string) (decpt : Z) : string :=
  let nd := Z.of_nat (String.length ds) in
  if (-4 <? decpt) && (decpt <=? 16) then
    if decpt <=? 0 then "0." ++ zeros (Z.to_nat (- decpt)) ++ ds
    else if nd <=? decpt then ds ++ zeros (Z.to_nat (decpt - nd)) ++ ".0"
    else take (Z.to_nat decpt) ds ++ "." ++ drop (Z.to_nat decpt) ds
  else
    let e := decpt - 1 in
    let es := PyStr.of_Z (Z.abs e) in
    take 1 ds ++ (if nd <=? 1 then "" else "." ++ drop 1 ds)
    ++ "e" ++ (if e <? 0 then "-" else "+")
    ++ (if Z.abs e <? 10 then "0" else "") ++ es.

Definition repr (x : float) : string :=
  match x with
  | S754_nan => "nan"
  | S754_infinity s => if s then "-inf" else "inf"
  | S754_zero s => if s then "-0.0" else "0.0"
  | S754_finite s m e =>
      let n := if 0 <=? e then Zpos m * 2 ^ e else Zpos m in
      let d := if 0 <=? e then 1 else 2 ^ (- e) in
      let '(c0, q0) := shortest 16 1 x n d (ilog10 n d) in
      let '(c, q) := trim_zeros 17 c0 q0 in
      let ds := PyStr.of_Z c in
      (if s then "-" else "") ++ layout ds (Z.of_nat (String.length ds) + q)
  end.

(** Commas between the groups of three digits, counted from the right. *)
Fixpoint group3 (fuel : nat) (ds : string) : string :=
  match fuel with
  | O => ds
  | S f =>
      let n := String.length ds in
      if (n <=? 3)%nat then ds
      else group3 f (take (n - 3) ds) ++ "," ++ drop (n - 3) ds
  end.

(** [format(x, ',.2f')]: the value rounded to two decimals (ties to even on
    the exact value), with thousands separators. *)
Definition format_2f (x : float) : string :=
  match x with
  | S754_nan => "nan"
  | S754_infinity s => if s then "-inf" else "inf"
  | S754_zero s => if s then "-0.00" else "0.00"
  | S754_finite s m e =>
      let n := if 0 <=? e then Zpos m * 2 ^ e * 100 else Zpos m * 100 in
      let d := if 0 <=? e then 1 else 2 ^ (- e) in
      let lo := n / d in
      let r := n mod d in
      let c := if (2 * r <? d) || ((2 * r =? d) && Z.even lo) then lo else lo + 1 in
      let ip := PyStr.of_Z (c / 100) in
      let fp := PyStr.of_Z (c mod 100) in
      (if s then "-" else "") ++ group3 (String.length ip) ip ++ "."
      ++ (if c mod 100 <? 10 then "0" else "") ++ fp
  end.

End PyFloat.

(** ** Regular expressions: the fragment of [re] the patterns use *)

Module Re.

Inductive regex : Type :=
| Bol                                          (* [^] *)
| Eol                                          (* [$] *)
| Chr (p : ascii -> bool)                      (* a character or a class *)
| Cat (r1 r2 : regex)
| Rep (r : regex) (lo : nat) (hi : option nat). (* greedy [r{lo,hi}] *)

Definition lit (c : ascii) : regex := Chr (Ascii.eqb c).
Definition plus (r : regex) : regex := Rep r 1 None.
Definition opt (r : regex) : regex := Rep r 0 (Some 1%nat).

Fixpoint seq (l : list regex) : regex :=
  match l with
  | [] => Rep (Chr (fun _ => false)) 0 (Some 0%nat)
  | [r] => r
  | r :: l' => Cat r (seq l')
  end.

(** A continuation receives whether the position is still the start of the
    string, and what is left of the string. *)
Definition cont : Type := bool -> string -> bool.

(** [$] (without [re.MULTILINE]) matches at the end of the string and just
    before a newline that ends the string. *)
Definition at_end (s : string) : bool :=
  match s with
  | EmptyString => true
  | String c EmptyString => Ascii.eqb c PyStr.newline
  | _ => false
  end.

(** The iterations of a repeat: one more iteration when [hi] allows it, or
    stop when [lo] is reached.  An iteration has to consume input. *)
Fixpoint rep (step : bool -> string -> cont -> bool)
    (fuel lo : nat) (hi : option nat) (at0 : bool) (s : string) (k : cont) : bool :=
  match fuel with
  | O => false
  | S f =>
      (match hi with
       | Some O => false
       | _ => step at0 s (fun b s' =>
                (String.length s' <? String.length s)%nat
                && rep step f (pred lo) (option_map pred hi) b s' k)
       end)
      || (match lo with O => k at0 s | S _ => false end)
  end.

(** Backtracking matcher: [match_from r at0 s k] holds when [r] matches a
    prefix of [s] such that [k] accepts what is left. *)
Fixpoint match_from (r : regex) (at0 : bool) (s : string) (k : cont) : bool :=
  match r with
  | Bol => at0 && k at0 s
  | Eol => at_end s && k at0 s
  | Chr p =>
      match s with
      | String c s' => p c && k false s'
      | EmptyString => false
      end
  | Cat r1 r2 => match_from r1 at0 s (fun b s' => match_from r2 b s' k)
  | Rep r0 lo hi => rep (match_from r0) (S (String.length s)) lo hi at0 s k
  end.

(** After a repeat has matched [pre], the position is the start of the
    string only if it was and [pre] is empty. *)
Definition still_start (at0 : bool) (pre : string) : bool :=
  match pre with
  | EmptyString => at0
  | String _ _ => false
  end.

Definition within (hi : option nat) (n : nat) : Prop :=
  match hi with
  | Some h => (n <= h)%nat
  | None => True
  end.

(** [bool(re.match(pattern, s))]: a match at the start of [s]. *)
Definition match_ (pattern : regex) (s : string) : bool :=
  match_from pattern true s (fun _ _ => true).

(** [bool(re.fullmatch(pattern, s))]: the whole of [s] is matched. *)
Definition fullmatch (pattern : regex) (s : string) : bool :=
  match_from pattern true s (fun _ s' => String.eqb s' EmptyString).

End Re.

(** ** Cell values and tables *)

(** A cell of the table: a string, an integer or a float; the NaN float is
    the marker of an empty cell. *)
Inductive value : Type :=
| VStr (s : string)
| VInt (n : Z)
| VFloat (x : PyFloat.float).

Definition NaN : value := VFloat S754_nan.

(** [pd.isna(v)] *)
Definition isna (v : value) : bool :=
  match v with
  | VFloat x => PyFloat.isnan x
  | _ => false
  end.

(** [str(v)] *)
Definition str (v : value) : string :=
  match v with
  | VStr s => s
  | VInt n => PyStr.of_Z n
  | VFloat x => PyFloat.repr x
  end.

(** [repr(v)] *)
Definition repr (v : value) : string :=
  match v with
  | VStr s => PyStr.repr s
  | _ => str v
  end.

(** [float(v)] *)
Definition float_ (v : value) : exn + PyFloat.float :=
  match v with
  | VStr s => PyFloat.of_string s
  | VInt n =>
      match PyFloat.of_Z n with
      | S754_infinity _ => inl (OverflowError "int too large to convert to float")
      | x => inr x
      end
  | VFloat x => inr x
  end.

(** [a == b] *)
Definition py_eq (a b : value) : bool :=
  match a, b with
  | VStr s, VStr t => String.eqb s t
  | VInt n, VInt m => Z.eqb n m
  | VFloat x, VFloat y => SFeqb x y
  | VFloat x, VInt n | VInt n, VFloat x =>
      match PyFloat.compare_Z x n with Some Eq => true | _ => false end
  | _, _ => false
  end.

(** [v in l] for a list [l] *)
Definition py_in (v : value) (l : list value) : bool := existsb (py_eq v) l.

(** [repr(l)] of a list *)
Definition repr_list (l : list value) : string :=
  "[" ++ PyStr.join ", " (map repr l) ++ "]".

(** A table: the column labels (distinct, as the loader makes them) and the
    rows, each with one cell per column. *)
Record DataFrame : Type := {
  columns : list string;
  data : list (list value)
}.

Fixpoint index_of (c : string) (cols : list string) : option nat :=
  match cols with
  | [] => None
  | c' :: r => if String.eqb c c' then Some O else option_map S (index_of c r)
  end.

(** [column in df.columns] *)
Definition has_column (d : DataFrame) (c : string) : bool :=
  match index_of c (columns d) with Some _ => true | None => false end.

(** A row as [iterrows] yields it: the cells under the labels of the frame. *)
Record Series : Type := {
  labels : list string;
  cells : list value
}.

(** [row[column]]: a label that is not in the frame raises [KeyError]. *)
Definition getitem (row : Series) (c : string) : exn + value :=
  match index_of c (labels row) with
  | Some i => inr (nth i (cells row) NaN)
  | None => inl (KeyError c)
  end.

Fixpoint enumerate_from {A : Type} (i : Z) (l : list A) : list (Z * A) :=
  match l with
  | [] => []
  | x :: r => (i, x) :: enumerate_from (i + 1) r
  end.

(** [df.iterrows()]: the rows with their index, which counts from zero. *)
Definition iterrows (d : DataFrame) : list (Z * Series) :=
  enumerate_from 0 (map (fun r => {| labels := columns d; cells := r |}) (data d)).

(** ** Statements that append to a list and may raise *)

Section Stmt.
Context {R : Type}.

(** A statement runs on the list of records accumulated so far and returns
    the list after it, with the exception it raised or its value. *)
Definition stmt (A : Type) : Type := list R -> list R * (exn + A).

Definition ret {A : Type} (a : A) : stmt A := fun st => (st, inr a).

Definition bind {A B : Type} (m : stmt A) (f : A -> stmt B) : stmt B :=
  fun st =>
    match m st with
    | (st', inr a) => f a st'
    | (st', inl e) => (st', inl e)
    end.

(** An expression that may raise, used as a statement. *)
Definition eval {A : Type} (x : exn + A) : stmt A := fun st => (st, x).

(** [records.append(r)] *)
Definition append (r : R) : stmt unit := fun st => ((st ++ [r])%list, inr tt).

Definition pass : stmt unit := ret tt.

(** [for x in l: body(x)] *)
Fixpoint for_each {A : Type} (l : list A) (body : A -> stmt unit) : stmt unit :=
  match l with
  | [] => pass
  | x :: r => bind (body x) (fun _ => for_each r body)
  end.

(** [try: body / except Exception as e: handler(e)] *)
Definition try_except (body : stmt unit) (handler : exn -> stmt unit) : stmt unit :=
  fun st =>
    match body st with
    | (st', inl e) => handler e st'
    | r => r
    end.

(** What a statement appends and how it ends, seen on the empty list. *)
Definition emitted {A : Type} (m : stmt A) : list R := fst (m []).
Definition outcome {A : Type} (m : stmt A) : exn + A := snd (m []).

(** A statement is append-only when, on every list, it appends what it
    emits and ends the same way. *)
Definition appends {A : Type} (m : stmt A) : Prop :=
  forall st, m st = ((st ++ emitted m)%list, outcome m).
End Stmt.

Notation "x <- m ;; k" := (bind m (fun x => k))
  (at level 61, m at next level, right associativity).
Notation "m ;;; k" := (bind m (fun _ => k))
  (at level 61, right associativity).

(** ** [excel_validator.py]: the generic rule engine *)

Module ExcelValidator.

(** A number of a rule: an [int] or a [float]. *)
Inductive num : Type :=
| NInt (n : Z)
| NFloat (x : PyFloat.float).

Definition str_num (b : num) : string :=
  match b with
  | NInt n => PyStr.of_Z n
  | NFloat x => PyFloat.repr x
  end.

(** [x < b] and [x > b] for a float [x] *)
Definition lt_num (x : PyFloat.float) (b : num) : bool :=
  match b with
  | NInt n => PyFloat.ltb_Z x n
  | NFloat y => PyFloat.ltb x y
  end.

Definition gt_num (x : PyFloat.float) (b : num) : bool :=
  match b with
  | NInt n => PyFloat.gtb_Z x n
  | NFloat y => PyFloat.gtb x y
  end.

(** The rule of one column: a dict with the optional keys ['required'],
    ['type'], ['min'], ['max'] and ['allowed_values'].  A missing
    ['required'] reads as [False]. *)
Record rule : Type := {
  required : bool;
  type : option string;
  min : option num;
  max : option num;
  allowed_values : option (list value)
}.

(** One entry of [validation_results]. *)
Record record : Type := {
  Row : Z;
  Column : string;
  Value : value;
  Error : string
}.

Record t : Type := {
  validation_results : list record;
  df : option DataFrame
}.

(** [__init__] *)
Definition init : t := {| validation_results := []; df := None |}.

(** [^[\w\.-]+@[\w\.-]+\.\w+$] *)
Definition email_class (c : ascii) : bool :=
  PyStr.is_word c || Ascii.eqb c "." || Ascii.eqb c "-".

Definition email_pattern : Re.regex :=
  Re.seq [Re.Bol; Re.plus (Re.Chr email_class); Re.lit "@";
          Re.plus (Re.Chr email_class); Re.lit "."; Re.plus (Re.Chr PyStr.is_word);
          Re.Eol].

Definition validate_email (email : value) : bool :=
  Re.match_ email_pattern (str email).

(** [^\+?1?\d{9,15}$] *)
Definition phone_pattern : Re.regex :=
  Re.seq [Re.Bol; Re.opt (Re.lit "+"); Re.opt (Re.lit "1");
          Re.Rep (Re.Chr PyStr.is_digit) 9 (Some 15%nat); Re.Eol].

Definition validate_phone (phone : value) : bool :=
  Re.match_ phone_pattern (str phone).

(** [str(value).replace('.', '').isdigit()] *)
Definition is_numeric (v : value) : bool :=
  PyStr.isdigit (PyStr.replace "." "" (str v)).

(** The records of the checks. *)
Definition not_found (rn : Z) (c : string) : record :=
  {| Row := rn; Column := c; Value := VStr "N/A";
     Error := "Column not found in Excel file" |}.

Definition required_empty (rn : Z) (c : string) (v : value) : record :=
  {| Row := rn; Column := c; Value := v; Error := "Required field is empty" |}.

Definition invalid_email (rn : Z) (c : string) (v : value) : record :=
  {| Row := rn; Column := c; Value := v; Error := "Invalid email format" |}.

Definition invalid_phone (rn : Z) (c : string) (v : value) : record :=
  {| Row := rn; Column := c; Value := v; Error := "Invalid phone number format" |}.

Definition not_a_number (rn : Z) (c : string) (v : value) : record :=
  {| Row := rn; Column := c; Value := v; Error := "Not a valid number" |}.

Definition below_minimum (rn : Z) (c : string) (v : value) (b : num) : record :=
  {| Row := rn; Column := c; Value := v;
     Error := "Value below minimum (" ++ str_num b ++ ")" |}.

Definition above_maximum (rn : Z) (c : string) (v : value) (b : num) : record :=
  {| Row := rn; Column := c; Value := v;
     Error := "Value above maximum (" ++ str_num b ++ ")" |}.

Definition not_allowed (rn : Z) (c : string) (v : value) (l : list value) : record :=
  {| Row := rn; Column := c; Value := v;
     Error := "Value not in allowed list: " ++ repr_list l |}.

(** The type validation of a cell. *)
Definition check_type (row_number : Z) (column : string) (r : rule) (v : value)
  : stmt unit :=
  match type r with
  | Some ty =>
      if String.eqb ty "email" && negb (validate_email v) then
        append (invalid_email row_number column v)
      else if String.eqb ty "phone" && negb (validate_phone v) then
        append (invalid_phone row_number column v)
      else if String.eqb ty "numeric" && negb (is_numeric v) then
        append (not_a_number row_number column v)
      else pass
  | None => pass
  end.

(** The range validation of a cell: [float(value)] is evaluated once for
    each bound that is set. *)
Definition check_min (row_number : Z) (column : string) (r : rule) (v : value)
  : stmt unit :=
  match min r with
  | Some b =>
      x <- eval (float_ v) ;;
      if lt_num x b then
        append (below_minimum row_number column v b)
      else pass
  | None => pass
  end.

Definition check_max (row_number : Z) (column : string) (r : rule) (v : value)
  : stmt unit :=
  match max r with
  | Some b =>
      x <- eval (float_ v) ;;
      if gt_num x b then
        append (above_maximum row_number column v b)
      else pass
  | None => pass
  end.

(** The list validation of a cell. *)
Definition check_allowed (row_number : Z) (column : string) (r : rule) (v : value)
  : stmt unit :=
  match allowed_values r with
  | Some l =>
      if negb (py_in v l) then
        append (not_allowed row_number column v l)
      else pass
  | None => pass
  end.

(** The body of the inner loop, for one column and its rule on one row; a
    [continue] ends the body. *)
Definition validate_cell (d : DataFrame) (row_number : Z) (row : Series)
    (item : string * rule) : stmt unit :=
  let '(column, r) := item in
  if negb (has_column d column) then
    append (not_found row_number column)
  else
    v <- eval (getitem row column) ;;
    if required r && isna v then
      append (required_empty row_number column v)
    else if isna v then pass
    else
      check_type row_number column r v ;;;
      check_min row_number column r v ;;;
      check_max row_number column r v ;;;
      check_allowed row_number column r v.

(** The body of the outer loop. *)
Definition validate_row (d : DataFrame) (rules : list (string * rule))
    (item : Z * Series) : stmt unit :=
  let '(index, row) := item in
  let row_number := index + 2 in
  for_each rules (validate_cell d row_number row).

(** [validate_data(self, rules)]: the object after the call, and the
    exception that ended the call, if any.  [rules.items()] is the list of
    the entries of the dict, in insertion order. *)
Definition validate_data (self : t) (rules : list (string * rule))
  : t * (exn + unit) :=
  match df self with
  | None =>
      ({| validation_results := []; df := df self |},
       inl (AttributeError "'NoneType' object has no attribute 'iterrows'"))
  | Some d =>
      let '(res, out) := for_each (iterrows d) (validate_row d rules) [] in
      ({| validation_results := res; df := df self |}, out)
  end.

(** *** Reading the result list *)

(** A record carries the row number and the column of a cell. *)
Definition tagged (rn : Z) (c : string) (rec : record) : Prop :=
  Row rec = rn /\ Column rec = c.

(** Selects the records of one cell, by row number and column. *)
Definition of_cell (rn : Z) (c : string) (rec : record) : bool :=
  (Row rec =? rn) && String.eqb (Column rec) c.

(** Selects the records of one column. *)
Definition of_column (c : string) (rec : record) : bool :=
  String.eqb (Column rec) c.

(** A rule with no key, and the rules of [main]. *)
Definition no_rule : rule :=
  {| required := false; type := None; min := None; max := None;
     allowed_values := None |}.

Definition email_rule : rule :=
  {| required := true; type := Some "email"; min := None; max := None;
     allowed_values := None |}.

Definition phone_rule : rule :=
  {| required := true; type := Some "phone"; min := None; max := None;
     allowed_values := None |}.

Definition age_rule : rule :=
  {| required := true; type := Some "numeric"; min := Some (NInt 0);
     max := Some (NInt 120); allowed_values := None |}.

Definition status_rule : rule :=
  {| required := true; type := None; min := None; max := None;
     allowed_values := Some [VStr "Active"; VStr "Inactive"; VStr "Pending"] |}.

Definition validation_rules : list (string * rule) :=
  [("Email", email_rule); ("Phone", phone_rule); ("Age", age_rule);
   ("Status", status_rule)].

(** *** The console program

    The reading of the file and the layout of the table of results are
    outside the repository: [read_excel] gives, for a path, the table read
    or the exception raised by [pd.read_excel], and [tabulate] gives the
    text of [tabulate(results, headers='keys', tablefmt='grid')].  The
    output is the list of the texts written, in order. *)

Section Console.
Variable read_excel : string -> exn + DataFrame.
Variable tabulate : list record -> string.

(** [print(s)] writes [s] and a newline. *)
Definition print (s : string) : string := s ++ String PyStr.newline EmptyString.

(** [load_excel(self, file_path)]: the object, the value returned and the
    texts written. *)
Definition load_excel (self : t) (file_path : string) : t * bool * list string :=
  match read_excel file_path with
  | inr d =>
      ({| validation_results := validation_results self; df := Some d |}, true,
       [print ("Successfully loaded Excel file with "
               ++ PyStr.of_Z (Z.of_nat (List.length (data d))) ++ " rows")])
  | inl e => (self, false, [print ("Error loading file: " ++ str_exn e)])
  end.

(** [display_results(self)]: the texts written. *)
Definition display_results (self : t) : list string :=
  match validation_results self with
  | [] => [print (String PyStr.newline "No validation errors found! âœ…")]
  | _ :: _ =>
      [print (String PyStr.newline "Validation Errors Found:");
       print (tabulate (validation_results self));
       print (String PyStr.newline "Total errors found: "
              ++ PyStr.of_Z (Z.of_nat (List.length (validation_results self))))]
  end.

Definition prompt : string := "Please enter the path to your Excel file: ".

(** [main()], for the path that the user enters: the texts written and the
    exception that ended the program, if any. *)
Definition main (file_path : string) : list string * (exn + unit) :=
  let validator := init in
  let '(validator1, loaded, out1) := load_excel validator file_path in
  if loaded then
    match validate_data validator1 validation_rules with
    | (validator2, inr _) =>
        ((prompt :: out1 ++ display_results validator2)%list, inr tt)
    | (_, inl e) => ((prompt :: out1)%list, inl e)
    end
  else ((prompt :: out1)%list, inr tt).
End Console.

End ExcelValidator.

(** ** [excel_validator_web.py]: the pricing and tax checks *)

Module EcommerceValidator.

(** One entry of [errors]. *)
Record record : Type := {
  Row : Z;
  Type_ : string;
  Error : string
}.

Record summary_t : Type := {
  Total_Rows : Z;
  Valid_Rows : Z;
  Invalid_Rows : Z
}.

Record t : Type := {
  df : option DataFrame;
  errors : list record;
  summary : option summary_t      (* [None] is the empty dict of [__init__] *)
}.

Definition init : t := {| df := None; errors := []; summary := None |}.

(** [float(str(row[c]).replace(',', '').replace('₹', '').strip())] *)
Definition price (row : Series) (c : string) : exn + PyFloat.float :=
  match getitem row c with
  | inl e => inl e
  | inr v =>
      PyFloat.of_string
        (PyStr.strip (PyStr.replace "₹" "" (PyStr.replace "," "" (str v))))
  end.

(** [float(str(row['Tax Rate']).replace('%', '').strip())] *)
Definition tax (row : Series) : exn + PyFloat.float :=
  match getitem row "Tax Rate" with
  | inl e => inl e
  | inr v => PyFloat.of_string (PyStr.strip (PyStr.replace "%" "" (str v)))
  end.

(** The tax rate on the percent scale: a value below one is a fraction. *)
Definition percent (tax_rate : PyFloat.float) : PyFloat.float :=
  if PyFloat.ltb_Z tax_rate 1 then PyFloat.mul tax_rate (PyFloat.of_Z 100)
  else tax_rate.

Definition expected_tax (sale_price : PyFloat.float) : Z :=
  if PyFloat.gtb_Z sale_price 999 then 18 else 12.

Definition price_error (row_num : Z) (map_price mrp : PyFloat.float) : record :=
  {| Row := row_num; Type_ := "Price Error";
     Error := "MAP (₹" ++ PyFloat.format_2f map_price
              ++ ") is greater than or equal to MRP (₹"
              ++ PyFloat.format_2f mrp ++ ")" |}.

Definition tax_error (row_num n : Z) (sale_price : PyFloat.float) : record :=
  {| Row := row_num; Type_ := "Tax Error";
     Error := "Incorrect tax rate " ++ PyStr.of_Z n ++ "% for Sale Price ₹"
              ++ PyFloat.format_2f sale_price ++ " (should be "
              ++ PyStr.of_Z (expected_tax sale_price) ++ "%)" |}.

Definition data_error (row_num : Z) (e : exn) : record :=
  {| Row := row_num; Type_ := "Data Error";
     Error := "Invalid data in row: " ++ str_exn e |}.

(** The four conversions of the [try], in their order: the first exception
    raised, or the four floats. *)
Definition parsed (row : Series)
  : exn + (PyFloat.float * PyFloat.float * PyFloat.float * PyFloat.float) :=
  match price row "MAP" with
  | inl e => inl e
  | inr map_price =>
      match price row "MRP (O)" with
      | inl e => inl e
      | inr mrp =>
          match price row "Sale Price (inc tax)" with
          | inl e => inl e
          | inr sale_price =>
              match tax row with
              | inl e => inl e
              | inr tax_rate => inr (map_price, mrp, sale_price, tax_rate)
              end
          end
      end
  end.

(** The body of the [try]. *)
Definition check_row (row_num : Z) (row : Series) : stmt unit :=
  map_price <- eval (price row "MAP") ;;
  mrp <- eval (price row "MRP (O)") ;;
  sale_price <- eval (price row "Sale Price (inc tax)") ;;
  tax_rate0 <- eval (tax row) ;;
  let tax_rate := percent tax_rate0 in
  (if PyFloat.geb map_price mrp then append (price_error row_num map_price mrp)
   else pass) ;;;
  n <- eval (PyFloat.to_int tax_rate) ;;
  if negb (n =? expected_tax sale_price) then
    append (tax_error row_num n sale_price)
  else pass.

(** The body of the loop: the [try] and its [except]. *)
Definition validate_row (item : Z * Series) : stmt unit :=
  let '(index, row) := item in
  let row_num := index + 2 in
  try_except (check_row row_num row) (fun e => append (data_error row_num e)).

Definition no_frame : exn :=
  AttributeError "'NoneType' object has no attribute 'iterrows'".

(** [validate_prices_and_tax(self)] appends to [self.errors]. *)
Definition validate_prices_and_tax (self : t) : t * (exn + unit) :=
  match df self with
  | None => (self, inl no_frame)
  | Some d =>
      let '(errs, out) := for_each (iterrows d) validate_row (errors self) in
      ({| df := df self; errors := errs; summary := summary self |}, out)
  end.

(** [len(set(error['Row'] for error in errors))] *)
Definition distinct_rows (l : list record) : Z :=
  Z.of_nat (List.length (nodup Z.eq_dec (map Row l))).

(** [validate(self)] *)
Definition validate (self : t) : t * (exn + unit) :=
  let self1 := {| df := df self; errors := []; summary := summary self |} in
  match validate_prices_and_tax self1 with
  | (self2, inl e) => (self2, inl e)
  | (self2, inr _) =>
      match df self2 with
      | None => (self2, inl (TypeError "object of type 'NoneType' has no len()"))
      | Some d =>
          let total_rows := Z.of_nat (List.length (data d)) in
          let invalid_rows := distinct_rows (errors self2) in
          ({| df := df self2; errors := errors self2;
              summary := Some {| Total_Rows := total_rows;
                                 Valid_Rows := total_rows - invalid_rows;
                                 Invalid_Rows := invalid_rows |} |}, inr tt)
      end
  end.

(** *** Reading the error list *)

(** What the two checks append once the four cells are converted; the
    [int] of the tax rate can still raise. *)
Definition price_records (rn : Z) (map_price mrp : PyFloat.float) : list record :=
  if PyFloat.geb map_price mrp then [price_error rn map_price mrp] else [].

Definition tax_records (rn : Z) (sale_price tax_rate : PyFloat.float) : list record :=
  match PyFloat.to_int (percent tax_rate) with
  | inr n => if n =? expected_tax sale_price then []
             else [tax_error rn n sale_price]
  | inl e => [data_error rn e]
  end.

(** The records of the rows of a table, in order. *)
Definition row_errors (d : DataFrame) : list record :=
  flat_map (fun item => emitted (validate_row item)) (iterrows d).

(** Selects the records of one row, and those of one type. *)
Definition of_row (rn : Z) (rec : record) : bool := Row rec =? rn.

Definition of_type (ty : string) (rec : record) : bool := String.eqb (Type_ rec) ty.

Definition of_row_type (rn : Z) (ty : string) (rec : record) : bool :=
  of_row rn rec && of_type ty rec.

(** The rows that have a record, and their number. *)
Definition has_errors (item : Z * Series) : bool :=
  match emitted (validate_row item) with
  | [] => false
  | _ :: _ => true
  end.

Definition rows_with_errors (d : DataFrame) : Z :=
  Z.of_nat (List.length (filter has_errors (iterrows d))).

(** The four columns that [validate_prices_and_tax] reads. *)
Definition read_columns : list string :=
  ["MAP"; "MRP (O)"; "Sale Price (inc tax)"; "Tax Rate"].

End EcommerceValidator.

(** ** The predicates as the specification words them *)

Module Spec.

Fixpoint remove_first (c : ascii) (s : string) : string :=
  match s with
  | EmptyString => EmptyString
  | String a s' => if Ascii.eqb a c then s' else String a (remove_first c s')
  end.

(** [isNumericString]: the string, with at most one point removed, consists
    entirely of digits. *)
Definition isNumericString (v : string) : bool :=
  PyStr.isdigit (remove_first "." v).

(** [isValidEmail]: an anchored match of the whole string against the
    pattern. *)
Definition isValidEmail (v : string) : bool :=
  Re.fullmatch ExcelValidator.email_pattern v.

End Spec.

(** ** Tables for the examples *)

Module Examples.
Import ExcelValidator.

Definition ages (l : list value) : DataFrame :=
  {| columns := ["Age"]; data := map (fun v => [v]) l |}.

Definition loaded (d : DataFrame) : ExcelValidator.t :=
  {| validation_results := []; df := Some d |}.

(** A table of prices: MAP, MRP, sale price and tax rate. *)
Definition prices (l : list (list value)) : DataFrame :=
  {| columns := ["MAP"; "MRP (O)"; "Sale Price (inc tax)"; "Tax Rate"]; data := l |}.

Definition uploaded (d : DataFrame) : EcommerceValidator.t :=
  {| EcommerceValidator.df := Some d; EcommerceValidator.errors := [];
     EcommerceValidator.summary := None |}.

(** A table of two rows whose first age is not a number. *)
Definition two_ages : DataFrame := ages [VStr "abc"; VInt 5].

(** A reader that finds this table at every path, and a layout of the
    results that writes nothing. *)
Definition reads_two_ages : string -> exn + DataFrame := fun _ => inr two_ages.

Definition blank_table : list ExcelValidator.record -> string := fun _ => EmptyString.

(** A table of two rows of prices: the first row passes both checks, the
    second has a MAP above its MRP and a tax of 12 for a price above 999. *)
Definition two_prices : DataFrame :=
  prices [[VInt 100; VInt 200; VInt 1200; VStr "18%"];
          [VInt 300; VInt 200; VInt 1200; VStr "12%"]].

(** A table without the column of the tax rate. *)
Definition no_tax_column : DataFrame :=
  {| columns := ["MAP"; "MRP (O)"; "Sale Price (inc tax)"];
     data := [[VInt 100; VInt 200; VInt 1200]] |}.

(** A rule with a type that the engine does not know. *)
Definition zip_rule : ExcelValidator.rule :=
  {| required := false; type := Some "zipcode"; min := None; max := None;
     allowed_values := None |}.

(** The string "a@b.com" followed by a newline. *)
Definition email_newline : string := "a@b.com" ++ String PyStr.newline EmptyString.

End Examples.

(** * Properties *)

(** ** The runtime on known values *)

Example float_literals :
  map PyFloat.parse ["12.5"; " -5 "; "1_000"; "1e400"; "abc"; "1.2.3"; ""; "nan"] =
  [Some (S754_finite false 7036874417766400 (-49));
   Some (S754_finite true 5629499534213120 (-50));
   Some (S754_finite false 8796093022208000 (-43));
   Some (S754_infinity false); None; None; None; Some S754_nan].
Proof. vm_compute. reflexivity. Qed.

Example float_reprs :
  map (fun s => option_map PyFloat.repr (PyFloat.parse s))
      ["12.5"; "25"; "0.1"; "1e16"; "1e15"; "0.00001"; "-0.0"; "1e400"] =
  [Some "12.5"; Some "25.0"; Some "0.1"; Some "1e+16"; Some "1000000000000000.0";
   Some "1e-05"; Some "-0.0"; Some "inf"].
Proof. vm_compute. reflexivity. Qed.

Example float_formats :
  map (fun s => option_map PyFloat.format_2f (PyFloat.parse s))
      ["100"; "1234567.891"; "0.005"; "2.675"; "-0.001"] =
  [Some "100.00"; Some "1,234,567.89"; Some "0.01"; Some "2.67"; Some "-0.00"].
Proof. vm_compute. reflexivity. Qed.

(** [0.18 * 100] is [18.0], but [0.29 * 100] is below 29. *)
Example percent_truncation :
  map (fun s => option_map (fun x => PyFloat.to_int (EcommerceValidator.percent x))
                           (PyFloat.parse s))
      ["0.18"; "18"; "0.29"; "0.999"; "1"] =
  [Some (inr 18); Some (inr 18); Some (inr 28); Some (inr 99); Some (inr 1)].
Proof. vm_compute. reflexivity. Qed.

Example phone_examples :
  map (fun s => ExcelValidator.validate_phone (VStr s))
      ["+11234567890"; "123"; "123456789"; "+11234567890123456"] =
  [true; false; true; false].
Proof. vm_compute. reflexivity. Qed.

Example strings_examples :
  (PyStr.replace "," "" "1,200,000", PyStr.replace "₹" "" "₹1200", PyStr.strip "  18  ",
   PyStr.repr "abc", PyStr.of_Z (-120),
   repr_list [VStr "Active"; VStr "Inactive"; VStr "Pending"]) =
  ("1200000", "1200", "18", "'abc'", "-120", "['Active', 'Inactive', 'Pending']").
Proof. vm_compute. reflexivity. Qed.

(** ** Statements only append *)

Section StmtFacts.
Context {R : Type}.

Lemma appends_intro {A : Type} (m : @stmt R A) (l : list R) (o : exn + A) :
  (forall st, m st = ((st ++ l)%list, o)) -> appends m.
Proof.
  intros H st. unfold emitted, outcome. now rewrite (H st), (H []).
Qed.

Lemma appends_ret {A : Type} (a : A) : appends (R := R) (ret a).
Proof. intros st. unfold ret, emitted, outcome. simpl. now rewrite app_nil_r. Qed.

Lemma appends_eval {A : Type} (x : exn + A) : appends (R := R) (eval x).
Proof. intros st. unfold eval, emitted, outcome. simpl. now rewrite app_nil_r. Qed.

Lemma appends_append (r : R) : appends (append r).
Proof. intros st. reflexivity. Qed.

Lemma appends_pass : appends (R := R) pass.
Proof. apply appends_ret. Qed.

Lemma run_bind {A B : Type} (m : @stmt R A) (f : A -> stmt B) :
  appends m -> (forall a, appends (f a)) ->
  forall st,
    bind m f st =
    ((st ++ emitted m ++ match outcome m with
                         | inr a => emitted (f a)
                         | inl _ => []
                         end)%list,
     match outcome m with
     | inr a => outcome (f a)
     | inl e => inl e
     end).
Proof.
  intros Hm Hf st. unfold bind. rewrite (Hm st).
  destruct (outcome m) as [e | a].
  - now rewrite app_nil_r.
  - rewrite (Hf a). now rewrite app_assoc.
Qed.

Lemma emitted_bind {A B : Type} (m : @stmt R A) (f : A -> stmt B) :
  appends m -> (forall a, appends (f a)) ->
  emitted (bind m f) =
  (emitted m ++ match outcome m with
                | inr a => emitted (f a)
                | inl _ => []
                end)%list.
Proof. intros Hm Hf. unfold emitted at 1. now rewrite run_bind. Qed.

Lemma outcome_bind {A B : Type} (m : @stmt R A) (f : A -> stmt B) :
  appends m -> (forall a, appends (f a)) ->
  outcome (bind m f) =
  match outcome m with
  | inr a => outcome (f a)
  | inl e => inl e
  end.
Proof. intros Hm Hf. unfold outcome at 1. now rewrite run_bind. Qed.

Lemma appends_bind {A B : Type} (m : @stmt R A) (f : A -> stmt B) :
  appends m -> (forall a, appends (f a)) -> appends (bind m f).
Proof.
  intros Hm Hf. eapply appends_intro. intros st.
  rewrite run_bind by assumption. reflexivity.
Qed.

Lemma appends_if {A : Type} (b : bool) (m1 m2 : @stmt R A) :
  appends m1 -> appends m2 -> appends (if b then m1 else m2).
Proof. now destruct b. Qed.

Lemma appends_for_each {A : Type} (l : list A) (body : A -> @stmt R unit) :
  (forall x, appends (body x)) -> appends (for_each l body).
Proof.
  intros H. induction l as [| x l IH]; simpl.
  - apply appends_pass.
  - apply appends_bind; auto.
Qed.

Lemma run_try_except (body : @stmt R unit) (handler : exn -> stmt unit) :
  appends body -> (forall e, appends (handler e)) ->
  forall st,
    try_except body handler st =
    ((st ++ emitted body ++ match outcome body with
                            | inl e => emitted (handler e)
                            | inr _ => []
                            end)%list,
     match outcome body with
     | inl e => outcome (handler e)
     | inr u => inr u
     end).
Proof.
  intros Hb Hh st. unfold try_except. rewrite (Hb st).
  destruct (outcome body) as [e | u].
  - rewrite (Hh e). now rewrite app_assoc.
  - now rewrite app_nil_r.
Qed.

Lemma appends_try_except (body : @stmt R unit) (handler : exn -> stmt unit) :
  appends body -> (forall e, appends (handler e)) ->
  appends (try_except body handler).
Proof.
  intros Hb Hh. eapply appends_intro. intros st.
  rewrite run_try_except by assumption. reflexivity.
Qed.

(** A loop whose bodies all end normally ends normally, and has appended
    what the bodies emit, in order. *)
Lemma for_each_normal {A : Type} (l : list A) (body : A -> @stmt R unit) :
  (forall x, appends (body x)) ->
  (forall x, In x l -> outcome (body x) = inr tt) ->
  outcome (for_each l body) = inr tt /\
  emitted (for_each l body) = flat_map (fun x => emitted (body x)) l.
Proof.
  intros Ha. induction l as [| x l IH]; intros Hn; simpl.
  - split; reflexivity.
  - destruct IH as [IHo IHe]; [intros y Hy; apply Hn; now right |].
    rewrite outcome_bind, emitted_bind by (auto using appends_for_each).
    rewrite (Hn x) by now left. now rewrite IHo, IHe.
Qed.

(** A loop ends normally only when all its bodies do. *)
Lemma for_each_normal_inv {A : Type} (l : list A) (body : A -> @stmt R unit) :
  (forall x, appends (body x)) ->
  outcome (for_each l body) = inr tt ->
  forall x, In x l -> outcome (body x) = inr tt.
Proof.
  intros Ha. induction l as [| y l IH]; simpl; intros Ho x Hx.
  - contradiction.
  - rewrite outcome_bind in Ho by (auto using appends_for_each).
    destruct (outcome (body y)) as [e | []] eqn:Ey; [discriminate |].
    destruct Hx as [-> | Hx]; auto.
Qed.

(** A loop with a body that raises ends with an exception raised by one of
    its bodies. *)
Lemma for_each_raises {A : Type} (l : list A) (body : A -> @stmt R unit) :
  (forall x, appends (body x)) ->
  forall x e, In x l -> outcome (body x) = inl e ->
  exists x' e', In x' l /\ outcome (body x') = inl e' /\
                outcome (for_each l body) = inl e'.
Proof.
  intros Ha. induction l as [| y l IH]; simpl; intros x e Hx He.
  - contradiction.
  - rewrite outcome_bind by (auto using appends_for_each).
    destruct (outcome (body y)) as [e1 | u] eqn:Ey.
    + exists y, e1. auto.
    + destruct Hx as [-> | Hx]; [congruence |].
      destruct (IH x e Hx He) as (x' & e' & Hin & Hb & Ho).
      exists x', e'. auto.
Qed.

(** The exception that ends a loop is raised by one of its bodies. *)
Lemma for_each_raises_inv {A : Type} (l : list A) (body : A -> @stmt R unit) :
  (forall x, appends (body x)) ->
  forall e, outcome (for_each l body) = inl e ->
  exists x, In x l /\ outcome (body x) = inl e.
Proof.
  intros Ha. induction l as [| y l IH]; simpl; intros e He.
  - discriminate.
  - rewrite outcome_bind in He by (auto using appends_for_each).
    destruct (outcome (body y)) as [e1 | u] eqn:Ey.
    + inversion He; subst. exists y. auto.
    + destruct (IH e He) as (x & Hin & Hx). exists x. auto.
Qed.

End StmtFacts.

Create HintDb stmt.
#[export] Hint Resolve appends_ret appends_eval appends_append appends_pass
  appends_bind appends_if appends_for_each appends_try_except : stmt.

(** ** Lists: selecting the records of one loop body *)

Section ListFacts.
Context {A B : Type}.

Lemma filter_flat_map (p : B -> bool) (g : A -> list B) (l : list A) :
  filter p (flat_map g l) = flat_map (fun x => filter p (g x)) l.
Proof.
  induction l as [| x l IH]; simpl.
  - reflexivity.
  - now rewrite filter_app, IH.
Qed.

Lemma flat_map_ext_in (f g : A -> list B) (l : list A) :
  (forall x, In x l -> f x = g x) -> flat_map f l = flat_map g l.
Proof.
  induction l as [| x l IH]; simpl; intros H.
  - reflexivity.
  - rewrite (H x) by now left. rewrite IH; auto.
Qed.

Lemma filter_none (p : B -> bool) (l : list B) :
  Forall (fun y => p y = false) l -> filter p l = [].
Proof.
  induction 1 as [| y l Hy _ IH]; simpl.
  - reflexivity.
  - now rewrite Hy.
Qed.

Lemma filter_all (p : B -> bool) (l : list B) :
  Forall (fun y => p y = true) l -> filter p l = l.
Proof.
  induction 1 as [| y l Hy _ IH]; simpl.
  - reflexivity.
  - now rewrite Hy, IH.
Qed.

(** When one element [x0] of a duplicate-free list is the only one whose
    body emits records selected by [p], selecting in the whole loop is
    selecting in the body of [x0]. *)
Lemma filter_flat_map_only (p : B -> bool) (g : A -> list B) (l : list A) (x0 : A) :
  NoDup l -> In x0 l ->
  (forall x, In x l -> x <> x0 -> Forall (fun y => p y = false) (g x)) ->
  filter p (flat_map g l) = filter p (g x0).
Proof.
  induction l as [| x l IH]; intros Hnd Hin Hothers.
  - contradiction.
  - simpl. rewrite filter_app. inversion Hnd as [| ? ? Hx Hnd']; subst.
    destruct Hin as [-> | Hin].
    + rewrite (filter_none p (flat_map g l)).
      * now rewrite app_nil_r.
      * apply Forall_flat_map. apply Forall_forall. intros y Hy.
        apply Hothers; [now right |]. intros ->. contradiction.
    + rewrite (filter_none p (g x)).
      * apply IH; auto. intros y Hy. apply Hothers. now right.
      * apply Hothers; [now left |]. intros ->. contradiction.
Qed.

Lemma NoDup_of_fst (l : list (A * B)) : NoDup (map fst l) -> NoDup l.
Proof.
  induction l as [| [a b] l IH]; simpl; intros H.
  - constructor.
  - inversion H as [| ? ? Hn Hd]; subst. constructor; auto.
    intros Hin. apply Hn. now apply (in_map fst) in Hin.
Qed.

Lemma NoDup_fst_eq (l : list (A * B)) (a : A) (b b' : B) :
  NoDup (map fst l) -> In (a, b) l -> In (a, b') l -> b = b'.
Proof.
  induction l as [| [a0 b0] l IH]; simpl; intros H H1 H2.
  - contradiction.
  - inversion H as [| ? ? Hn Hd]; subst.
    destruct H1 as [E1 | H1], H2 as [E2 | H2].
    + congruence.
    + inversion E1; subst. exfalso. apply Hn. now apply (in_map fst) in H2.
    + inversion E2; subst. exfalso. apply Hn. now apply (in_map fst) in H1.
    + auto.
Qed.
End ListFacts.

(** The rows of [iterrows] and their indices. *)

Lemma enumerate_from_In {A : Type} (l : list A) (k i : Z) (x : A) :
  In (i, x) (enumerate_from k l) <->
  k <= i /\ nth_error l (Z.to_nat (i - k)) = Some x.
Proof.
  revert k. induction l as [| y l IH]; intros k; simpl.
  - split; [contradiction |]. intros [_ H]. now destruct (Z.to_nat (i - k)).
  - rewrite IH. split.
    + intros [E | [Hk Hn]].
      * inversion E; subst. split; [lia |]. now rewrite Z.sub_diag.
      * split; [lia |]. replace (Z.to_nat (i - k)) with (S (Z.to_nat (i - (k + 1)))) by lia.
        exact Hn.
    + intros [Hk Hn]. destruct (Z.eq_dec i k) as [-> | Hne].
      * rewrite Z.sub_diag in Hn. simpl in Hn. left. congruence.
      * right. split; [lia |].
        replace (Z.to_nat (i - k)) with (S (Z.to_nat (i - (k + 1)))) in Hn by lia.
        exact Hn.
Qed.

Lemma enumerate_from_NoDup {A : Type} (l : list A) (k : Z) :
  NoDup (map fst (enumerate_from k l)).
Proof.
  revert k. induction l as [| x l IH]; intros k; simpl.
  - constructor.
  - constructor; [| apply IH].
    intros Hin. apply in_map_iff in Hin. destruct Hin as ([i y] & E & Hin).
    simpl in E. subst i. apply enumerate_from_In in Hin. lia.
Qed.

Lemma enumerate_from_singletons {A B : Type} (f : Z -> B) (l : list A) (k : Z) :
  flat_map (fun item : Z * A => [f (fst item)]) (enumerate_from k l) =
  map (fun i => f (k + Z.of_nat i)) (seq 0 (length l)).
Proof.
  revert k. induction l as [| x l IH]; intros k; simpl.
  - reflexivity.
  - rewrite IH, Z.add_0_r. f_equal. rewrite <- seq_shift, map_map.
    apply map_ext. intros i. f_equal. lia.
Qed.

Lemma iterrows_In (d : DataFrame) (i : nat) (r : list value) :
  nth_error (data d) i = Some r ->
  In (Z.of_nat i, {| labels := columns d; cells := r |}) (iterrows d).
Proof.
  intros H. unfold iterrows. apply enumerate_from_In. split; [lia |].
  rewrite Z.sub_0_r, Nat2Z.id. now rewrite nth_error_map, H.
Qed.

Lemma iterrows_labels (d : DataFrame) (i : Z) (row : Series) :
  In (i, row) (iterrows d) -> labels row = columns d.
Proof.
  unfold iterrows. intros H. apply enumerate_from_In in H. destruct H as [_ H].
  rewrite nth_error_map in H. destruct (nth_error (data d) _); [| discriminate].
  simpl in H. now inversion H.
Qed.

(** ** The generic rule engine *)

Section GenericEngine.
Import ExcelValidator.

Lemma check_type_appends rn c r v : appends (check_type rn c r v).
Proof. unfold check_type. destruct (type r); auto 10 with stmt. Qed.

Lemma check_min_appends rn c r v : appends (check_min rn c r v).
Proof. unfold check_min. destruct (min r); auto 10 with stmt. Qed.

Lemma check_max_appends rn c r v : appends (check_max rn c r v).
Proof. unfold check_max. destruct (max r); auto 10 with stmt. Qed.

Lemma check_allowed_appends rn c r v : appends (check_allowed rn c r v).
Proof. unfold check_allowed. destruct (allowed_values r); auto 10 with stmt. Qed.

Hint Resolve check_type_appends check_min_appends check_max_appends
  check_allowed_appends : stmt.

Lemma validate_cell_appends d rn row item : appends (validate_cell d rn row item).
Proof. destruct item as [c r]. unfold validate_cell. auto 12 with stmt. Qed.

Hint Resolve validate_cell_appends : stmt.

Lemma validate_row_appends d rules item : appends (validate_row d rules item).
Proof. destruct item as [i row]. unfold validate_row. auto with stmt. Qed.

Hint Resolve validate_row_appends : stmt.

(** The call replaces the result list by what the loops emit. *)
Lemma validate_data_run self d rules :
  df self = Some d ->
  validate_data self rules =
  ({| validation_results := emitted (for_each (iterrows d) (validate_row d rules));
      df := Some d |},
   outcome (for_each (iterrows d) (validate_row d rules))).
Proof.
  intros Hd. unfold validate_data. rewrite Hd.
  rewrite (appends_for_each (iterrows d) (validate_row d rules)
             (validate_row_appends d rules) []).
  reflexivity.
Qed.

(** *** The four cases of the body of the inner loop *)

Lemma validate_cell_absent d rn row c r :
  has_column d c = false ->
  validate_cell d rn row (c, r) = append (not_found rn c).
Proof. intros H. unfold validate_cell. now rewrite H. Qed.

Lemma validate_cell_required_empty d rn row c r v :
  has_column d c = true -> getitem row c = inr v -> isna v = true ->
  required r = true ->
  validate_cell d rn row (c, r) = append (required_empty rn c v).
Proof.
  intros H Hv Hna Hr. unfold validate_cell, bind, eval. rewrite H, Hv, Hna, Hr.
  reflexivity.
Qed.

Lemma validate_cell_empty d rn row c r v :
  has_column d c = true -> getitem row c = inr v -> isna v = true ->
  required r = false ->
  validate_cell d rn row (c, r) = pass.
Proof.
  intros H Hv Hna Hr. unfold validate_cell, bind, eval. rewrite H, Hv, Hna, Hr.
  reflexivity.
Qed.

Lemma validate_cell_present d rn row c r v :
  has_column d c = true -> getitem row c = inr v -> isna v = false ->
  validate_cell d rn row (c, r) =
  (check_type rn c r v ;;; check_min rn c r v ;;; check_max rn c r v ;;;
   check_allowed rn c r v).
Proof.
  intros H Hv Hna. unfold validate_cell. rewrite H. cbn [negb].
  unfold bind at 1, eval. rewrite Hv, Hna, andb_false_r. reflexivity.
Qed.

(** The cell of a column of the frame is always found. *)
Lemma getitem_present d row c :
  labels row = columns d -> has_column d c = true ->
  exists v, getitem row c = inr v.
Proof.
  unfold has_column, getitem. intros ->.
  destruct (index_of c (columns d)); [eauto | discriminate].
Qed.

(** *** What each check emits and how it ends *)

Lemma check_type_outcome rn c r v : outcome (check_type rn c r v) = inr tt.
Proof.
  unfold check_type. destruct (type r); [| reflexivity].
  repeat match goal with |- context [if ?b then _ else _] => destruct b end;
    reflexivity.
Qed.

Lemma check_allowed_outcome rn c r v : outcome (check_allowed rn c r v) = inr tt.
Proof.
  unfold check_allowed. destruct (allowed_values r); [| reflexivity].
  destruct (negb _); reflexivity.
Qed.

Lemma check_min_outcome rn c r v :
  outcome (check_min rn c r v) =
  match min r with
  | Some _ => match float_ v with inl e => inl e | inr _ => inr tt end
  | None => inr tt
  end.
Proof.
  unfold check_min. destruct (min r); [| reflexivity].
  unfold outcome, bind, eval. destruct (float_ v); [reflexivity |].
  destruct (lt_num _ _); reflexivity.
Qed.

Lemma check_max_outcome rn c r v :
  outcome (check_max rn c r v) =
  match max r with
  | Some _ => match float_ v with inl e => inl e | inr _ => inr tt end
  | None => inr tt
  end.
Proof.
  unfold check_max. destruct (max r); [| reflexivity].
  unfold outcome, bind, eval. destruct (float_ v); [reflexivity |].
  destruct (gt_num _ _); reflexivity.
Qed.

Lemma checks_outcome rn c r v :
  outcome (check_type rn c r v ;;; check_min rn c r v ;;; check_max rn c r v ;;;
           check_allowed rn c r v) =
  match float_ v with
  | inl e => match min r, max r with
             | None, None => inr tt
             | _, _ => inl e
             end
  | inr _ => inr tt
  end.
Proof.
  rewrite !outcome_bind by auto 10 with stmt.
  rewrite check_type_outcome, check_min_outcome, check_max_outcome,
    check_allowed_outcome.
  destruct (float_ v), (min r), (max r); reflexivity.
Qed.

Lemma Forall_emitted_bind {A B : Type} (P : record -> Prop)
    (m : stmt A) (f : A -> stmt B) :
  appends m -> (forall a, appends (f a)) ->
  Forall P (emitted m) -> (forall a, Forall P (emitted (f a))) ->
  Forall P (emitted (bind m f)).
Proof.
  intros Hm Hf H1 H2. rewrite emitted_bind by assumption.
  apply Forall_app. split; [assumption |].
  destruct (outcome m); [constructor | apply H2].
Qed.

Lemma check_type_tagged rn c r v : Forall (tagged rn c) (emitted (check_type rn c r v)).
Proof.
  unfold check_type. destruct (type r); [| constructor].
  repeat match goal with |- context [if ?b then _ else _] => destruct b end;
    repeat constructor.
Qed.

Lemma check_min_tagged rn c r v : Forall (tagged rn c) (emitted (check_min rn c r v)).
Proof.
  unfold check_min. destruct (min r); [| constructor].
  unfold emitted, bind, eval. destruct (float_ v); [constructor |].
  destruct (lt_num _ _); repeat constructor.
Qed.

Lemma check_max_tagged rn c r v : Forall (tagged rn c) (emitted (check_max rn c r v)).
Proof.
  unfold check_max. destruct (max r); [| constructor].
  unfold emitted, bind, eval. destruct (float_ v); [constructor |].
  destruct (gt_num _ _); repeat constructor.
Qed.

Lemma check_allowed_tagged rn c r v :
  Forall (tagged rn c) (emitted (check_allowed rn c r v)).
Proof.
  unfold check_allowed. destruct (allowed_values r); [| constructor].
  destruct (negb _); repeat constructor.
Qed.

(** Every record of a cell carries the row number and the column of the
    cell. *)
Lemma validate_cell_tagged d rn row c r :
  Forall (tagged rn c) (emitted (validate_cell d rn row (c, r))).
Proof.
  destruct (has_column d c) eqn:Hc.
  - destruct (getitem row c) as [e | v] eqn:Hv.
    + unfold validate_cell. rewrite Hc. cbn [negb].
      unfold emitted, bind, eval. rewrite Hv. constructor.
    + destruct (isna v) eqn:Hna; [destruct (required r) eqn:Hr |].
      * rewrite (validate_cell_required_empty d rn row c r v) by assumption.
        repeat constructor.
      * rewrite (validate_cell_empty d rn row c r v) by assumption. constructor.
      * rewrite (validate_cell_present d rn row c r v) by assumption.
        repeat (apply Forall_emitted_bind; [auto 10 with stmt .. | | intros _]);
          auto using check_type_tagged, check_min_tagged, check_max_tagged,
            check_allowed_tagged.
  - rewrite validate_cell_absent by assumption. repeat constructor.
Qed.

(** The only exception of a cell is a failed [float(value)] under a rule
    with a bound. *)
Lemma validate_cell_fault d rn row c r e :
  labels row = columns d ->
  outcome (validate_cell d rn row (c, r)) = inl e ->
  exists v, getitem row c = inr v /\ isna v = false /\ float_ v = inl e /\
            (min r <> None \/ max r <> None).
Proof.
  intros Hl. destruct (has_column d c) eqn:Hc.
  - destruct (getitem_present d row c Hl Hc) as [v Hv].
    destruct (isna v) eqn:Hna; [destruct (required r) eqn:Hr |].
    + rewrite (validate_cell_required_empty d rn row c r v) by assumption.
      discriminate.
    + rewrite (validate_cell_empty d rn row c r v) by assumption. discriminate.
    + rewrite (validate_cell_present d rn row c r v) by assumption.
      rewrite checks_outcome. intros H. exists v.
      destruct (float_ v) as [e' |]; [| discriminate].
      destruct (min r) eqn:Hmin, (max r) eqn:Hmax; try discriminate;
        inversion H; subst; repeat split; auto; (left + right); discriminate.
  - rewrite validate_cell_absent by assumption. discriminate.
Qed.

(** A cell that is not empty, under a rule with a bound, whose
    [float(value)] fails: the body raises that exception. *)
Lemma validate_cell_raises d rn row c r v e :
  has_column d c = true -> getitem row c = inr v -> isna v = false ->
  min r <> None \/ max r <> None -> float_ v = inl e ->
  outcome (validate_cell d rn row (c, r)) = inl e.
Proof.
  intros Hc Hv Hna Hb He.
  rewrite (validate_cell_present d rn row c r v) by assumption.
  rewrite checks_outcome, He.
  destruct (min r), (max r); try reflexivity. destruct Hb; congruence.
Qed.

(** *** Whole runs *)

(** The records of a run that ends normally, row by row and cell by
    cell. *)
Lemma validate_data_normal self d rules :
  df self = Some d ->
  snd (validate_data self rules) = inr tt ->
  validation_results (fst (validate_data self rules)) =
  flat_map (fun item : Z * Series =>
              flat_map (fun x => emitted (validate_cell d (fst item + 2) (snd item) x))
                       rules)
           (iterrows d).
Proof.
  intros Hd. rewrite (validate_data_run self d rules Hd). cbn [fst snd validation_results].
  intros Ho.
  pose proof (for_each_normal_inv _ _ (validate_row_appends d rules) Ho) as Hrows.
  destruct (for_each_normal (iterrows d) (validate_row d rules)
              (validate_row_appends d rules) Hrows) as [_ ->].
  apply flat_map_ext_in. intros [i row] Hin. cbn [fst snd].
  specialize (Hrows _ Hin). unfold validate_row in *.
  pose proof (for_each_normal_inv _ _ (validate_cell_appends d (i + 2) row) Hrows)
    as Hcells.
  now destruct (for_each_normal rules (validate_cell d (i + 2) row)
                  (validate_cell_appends d (i + 2) row) Hcells) as [_ ->].
Qed.

Lemma in_rules_only (rules : list (string * rule)) c r (p : record -> bool)
    (d : DataFrame) rn row :
  NoDup (map fst rules) -> In (c, r) rules ->
  (forall rec, Column rec <> c -> p rec = false) ->
  filter p (flat_map (fun x => emitted (validate_cell d rn row x)) rules) =
  filter p (emitted (validate_cell d rn row (c, r))).
Proof.
  intros Hnd Hin Hp.
  apply (filter_flat_map_only p (fun x => emitted (validate_cell d rn row x))
           rules (c, r)); auto using NoDup_of_fst.
  intros [c' r'] Hin' Hne.
  eapply Forall_impl; [| apply validate_cell_tagged].
  intros rec [_ Hcol]. apply Hp. rewrite Hcol. intros ->.
  apply Hne. f_equal. eapply NoDup_fst_eq; eauto.
Qed.

(** In a run that ends normally, the records of the result that carry the
    row number and the column of a cell are the records of that cell. *)
Lemma records_of_cell self d rules i cells c r :
  df self = Some d -> NoDup (map fst rules) ->
  snd (validate_data self rules) = inr tt ->
  nth_error (data d) i = Some cells -> In (c, r) rules ->
  filter (of_cell (Z.of_nat i + 2) c) (validation_results (fst (validate_data self rules))) =
  emitted (validate_cell d (Z.of_nat i + 2) {| labels := columns d; cells := cells |} (c, r)).
Proof.
  intros Hd Hnd Ho Hi Hin. rewrite (validate_data_normal self d rules Hd Ho).
  rewrite (filter_flat_map_only _ _ (iterrows d)
             (Z.of_nat i, {| labels := columns d; cells := cells |})).
  - cbn [fst snd]. rewrite (in_rules_only rules c r); auto.
    2:{ intros rec Hc. unfold of_cell. apply String.eqb_neq in Hc.
        rewrite Hc. apply andb_false_r. }
    apply filter_all. eapply Forall_impl; [| apply validate_cell_tagged].
    intros rec [Hr Hc]. unfold of_cell. now rewrite Hr, Hc, Z.eqb_refl, String.eqb_refl.
  - apply NoDup_of_fst. apply enumerate_from_NoDup.
  - now apply iterrows_In.
  - intros [j row'] Hin' Hne. cbn [fst snd]. apply Forall_flat_map.
    apply Forall_forall. intros [c' r'] _.
    eapply Forall_impl; [| apply validate_cell_tagged].
    intros rec [Hr _]. unfold of_cell. rewrite Hr.
    destruct (Z.eqb_spec (j + 2) (Z.of_nat i + 2)) as [E |]; [| reflexivity].
    exfalso. apply Hne. assert (j = Z.of_nat i) by lia. subst j. f_equal.
    eapply NoDup_fst_eq; [apply enumerate_from_NoDup | exact Hin' |].
    now apply iterrows_In.
Qed.

(** What the type validation emits under a rule of type ['numeric']. *)
Lemma check_type_numeric rn c r v :
  type r = Some "numeric" ->
  emitted (check_type rn c r v) =
  if is_numeric v then [] else [not_a_number rn c v].
Proof.
  intros Ht. unfold check_type. rewrite Ht. cbn [String.eqb Ascii.eqb Bool.eqb andb].
  now destruct (is_numeric v).
Qed.

Lemma check_min_below rn c r v b x :
  min r = Some b -> float_ v = inr x -> lt_num x b = true ->
  emitted (check_min rn c r v) = [below_minimum rn c v b] /\
  outcome (check_min rn c r v) = inr tt.
Proof.
  intros Hm Hv Hlt. unfold check_min, emitted, outcome, bind, eval.
  now rewrite Hm, Hv, Hlt.
Qed.

(** C2: when some cell of a column of the table is not empty, is under a
    rule with ['min'] or ['max'] set, and [float(value)] raises on it, the
    call of [validate_data] ends with an exception that [float] raised: it
    does not return. *)
Theorem C2_conversion_fault_aborts self d rules i cells c r v e :
  df self = Some d ->
  nth_error (data d) i = Some cells ->
  In (c, r) rules ->
  has_column d c = true ->
  getitem {| labels := columns d; cells := cells |} c = inr v ->
  isna v = false ->
  min r <> None \/ max r <> None ->
  float_ v = inl e ->
  exists e' v', snd (validate_data self rules) = inl e' /\ float_ v' = inl e'.
Proof.
  intros Hd Hi Hin Hc Hv Hna Hb He.
  rewrite (validate_data_run self d rules Hd). cbn [snd].
  pose proof (validate_cell_raises d (Z.of_nat i + 2) _ c r v e Hc Hv Hna Hb He) as Hcell.
  destruct (for_each_raises rules _ (validate_cell_appends d (Z.of_nat i + 2) _)
              _ _ Hin Hcell) as (x1 & e1 & _ & _ & Hrow).
  destruct (for_each_raises (iterrows d) (validate_row d rules)
              (validate_row_appends d rules)
              (Z.of_nat i, {| labels := columns d; cells := cells |}) e1
              (iterrows_In d i cells Hi) Hrow)
    as ([j row'] & e' & Hin' & Hrow' & Hrun).
  unfold validate_row in Hrow'.
  destruct (for_each_raises_inv rules _ (validate_cell_appends d (j + 2) row') e' Hrow')
    as ([c' r'] & _ & Hcell').
  destruct (validate_cell_fault d (j + 2) row' c' r' e' (iterrows_labels d j row' Hin') Hcell')
    as (v' & _ & _ & Hv' & _).
  exists e', v'. auto.
Qed.

(** C3, as amended: in a run of [validate_data] that ends normally, an
    empty cell of a column of the table has exactly one record, 'Required
    field is empty', when its rule is required, and no record otherwise;
    the body of the loop is then this one [append], or nothing, so no
    other check runs on the cell. *)
Theorem C3_empty_cell self d rules i cells c r v :
  df self = Some d ->
  NoDup (map fst rules) ->
  snd (validate_data self rules) = inr tt ->
  nth_error (data d) i = Some cells ->
  In (c, r) rules ->
  has_column d c = true ->
  getitem {| labels := columns d; cells := cells |} c = inr v ->
  isna v = true ->
  filter (of_cell (Z.of_nat i + 2) c)
         (validation_results (fst (validate_data self rules))) =
    (if required r then [required_empty (Z.of_nat i + 2) c v] else []) /\
  validate_cell d (Z.of_nat i + 2) {| labels := columns d; cells := cells |} (c, r) =
    (if required r then append (required_empty (Z.of_nat i + 2) c v) else pass).
Proof.
  intros Hd Hnd Ho Hi Hin Hc Hv Hna.
  rewrite (records_of_cell self d rules i cells c r Hd Hnd Ho Hi Hin).
  destruct (required r) eqn:Hr.
  - now rewrite (validate_cell_required_empty d _ _ c r v Hc Hv Hna Hr).
  - now rewrite (validate_cell_empty d _ _ c r v Hc Hv Hna Hr).
Qed.

(** C10, as amended: in a run of [validate_data] that ends normally, the
    records of a configured column that the table does not have are one
    'Column not found in Excel file' record, with value 'N/A', per row of
    the table, in the order of the rows: as many as the table has rows,
    and none for an empty table. *)
Theorem C10_missing_column self d rules c r :
  df self = Some d ->
  NoDup (map fst rules) ->
  snd (validate_data self rules) = inr tt ->
  In (c, r) rules ->
  has_column d c = false ->
  filter (of_column c) (validation_results (fst (validate_data self rules))) =
    map (fun i => not_found (Z.of_nat i + 2) c) (seq 0 (length (data d))) /\
  length (filter (of_column c) (validation_results (fst (validate_data self rules)))) =
    length (data d) /\
  (data d = [] ->
   filter (of_column c) (validation_results (fst (validate_data self rules))) = []).
Proof.
  intros Hd Hnd Ho Hin Hc.
  assert (E : filter (of_column c) (validation_results (fst (validate_data self rules))) =
              map (fun i => not_found (Z.of_nat i + 2) c) (seq 0 (length (data d)))).
  { rewrite (validate_data_normal self d rules Hd Ho), filter_flat_map.
    rewrite (flat_map_ext_in _ (fun item => [not_found (fst item + 2) c])).
    - unfold iterrows.
      rewrite (enumerate_from_singletons (fun k => not_found (k + 2) c)).
      rewrite length_map. apply map_ext. intros k. f_equal.
    - intros [j row] _. cbn [fst snd].
      rewrite (in_rules_only rules c r); auto.
      + rewrite validate_cell_absent by assumption. cbn.
        unfold of_column. cbn [Column not_found]. now rewrite String.eqb_refl.
      + intros rec Hne. unfold of_column. now apply String.eqb_neq. }
  rewrite E. repeat split.
  - now rewrite length_map, length_seq.
  - intros ->. reflexivity.
Qed.

(** C4: the four checks of a cell that is not empty run one after the
    other with no exit after a type failure: a cell that fails the numeric
    type check and is below the minimum has both records, in this order.
    The cell "-5" under the rule of 'Age' (numeric, minimum 0) is such a
    cell: the run yields 'Not a valid number' and 'Value below minimum
    (0)' for it. *)
Theorem C4_type_and_range_both_fire :
  (forall d rn row c r v b x,
      has_column d c = true -> getitem row c = inr v -> isna v = false ->
      type r = Some "numeric" -> is_numeric v = false ->
      min r = Some b -> float_ v = inr x -> lt_num x b = true ->
      exists rest,
        emitted (validate_cell d rn row (c, r)) =
        not_a_number rn c v :: below_minimum rn c v b :: rest) /\
  validate_data {| validation_results := [];
                   df := Some {| columns := ["Age"]; data := [[VStr "-5"]] |} |}
                [("Age", age_rule)] =
  ({| validation_results := [not_a_number 2 "Age" (VStr "-5");
                             below_minimum 2 "Age" (VStr "-5") (NInt 0)];
      df := Some {| columns := ["Age"]; data := [[VStr "-5"]] |} |}, inr tt).
Proof.
  split.
  - intros d rn row c r v b x Hc Hv Hna Ht Hnum Hm Hx Hlt.
    rewrite (validate_cell_present d rn row c r v Hc Hv Hna).
    rewrite emitted_bind by auto 10 with stmt.
    rewrite check_type_numeric, Hnum, check_type_outcome by assumption.
    rewrite emitted_bind by auto 10 with stmt.
    destruct (check_min_below rn c r v b x Hm Hx Hlt) as [-> ->].
    eexists. reflexivity.
  - vm_compute. reflexivity.
Qed.
End GenericEngine.

(** ** The pricing and tax checks *)

Section DomainRules.
Import EcommerceValidator.

Lemma check_row_appends rn row : appends (check_row rn row).
Proof. unfold check_row. auto 20 with stmt. Qed.

Lemma domain_row_appends item : appends (validate_row item).
Proof.
  destruct item as [i row]. unfold validate_row.
  auto using check_row_appends with stmt.
Qed.

(** The records of a row whose four cells are converted. *)
Lemma validate_row_parsed i row m p sp t :
  parsed row = inr (m, p, sp, t) ->
  emitted (validate_row (i, row)) =
    (price_records (i + 2) m p ++ tax_records (i + 2) sp t)%list /\
  outcome (validate_row (i, row)) = inr tt.
Proof.
  unfold parsed. intros H.
  destruct (price row "MAP") as [| m'] eqn:E1; [discriminate |].
  destruct (price row "MRP (O)") as [| p'] eqn:E2; [discriminate |].
  destruct (price row "Sale Price (inc tax)") as [| sp'] eqn:E3; [discriminate |].
  destruct (tax row) as [| t'] eqn:E4; [discriminate |].
  inversion H; subst.
  unfold validate_row, try_except, check_row, emitted, outcome, bind, eval.
  rewrite E1, E2, E3, E4. unfold price_records, tax_records.
  destruct (PyFloat.geb m p); cbn [append pass ret app];
    destruct (PyFloat.to_int (percent t)) as [e | n]; cbn;
    try destruct (n =? expected_tax sp); cbn; split; reflexivity.
Qed.

(** The records of a row with a cell that is not converted. *)
Lemma validate_row_failed i row e :
  parsed row = inl e ->
  emitted (validate_row (i, row)) = [data_error (i + 2) e] /\
  outcome (validate_row (i, row)) = inr tt.
Proof.
  unfold parsed. intros H.
  unfold validate_row, try_except, check_row, emitted, outcome, bind, eval.
  destruct (price row "MAP") as [e1 | m']; [inversion H; subst; now split |].
  destruct (price row "MRP (O)") as [e2 | p']; [inversion H; subst; now split |].
  destruct (price row "Sale Price (inc tax)") as [e3 | sp'];
    [inversion H; subst; now split |].
  destruct (tax row) as [e4 | t']; [inversion H; subst; now split | discriminate].
Qed.

(** The body of the loop never raises. *)
Lemma validate_row_outcome item : outcome (validate_row item) = inr tt.
Proof.
  destruct item as [i row]. destruct (parsed row) as [e | [[[m p] sp] t]] eqn:E.
  - exact (proj2 (validate_row_failed i row e E)).
  - exact (proj2 (validate_row_parsed i row m p sp t E)).
Qed.

(** Every record of a row carries its row number. *)
Lemma validate_row_tagged i row :
  Forall (fun rec => Row rec = i + 2) (emitted (validate_row (i, row))).
Proof.
  destruct (parsed row) as [e | [[[m p] sp] t]] eqn:E.
  - destruct (validate_row_failed i row e E) as [-> _]. repeat constructor.
  - destruct (validate_row_parsed i row m p sp t E) as [-> _].
    unfold price_records, tax_records. apply Forall_app. split.
    + destruct (PyFloat.geb m p); repeat constructor.
    + destruct (PyFloat.to_int _) as [| n]; [| destruct (n =? _)]; repeat constructor.
Qed.

(** [validate] always returns when a table is loaded: the errors are the
    records of the rows in order, the summary is computed from them. *)
Lemma validate_run self d :
  df self = Some d ->
  validate self =
  ({| df := Some d; errors := row_errors d;
      summary := Some {| Total_Rows := Z.of_nat (length (data d));
                         Valid_Rows := Z.of_nat (length (data d))
                                       - distinct_rows (row_errors d);
                         Invalid_Rows := distinct_rows (row_errors d) |} |},
   inr tt).
Proof.
  intros Hd. unfold validate, validate_prices_and_tax. cbn [df errors]. rewrite Hd.
  rewrite (appends_for_each (iterrows d) validate_row domain_row_appends []).
  destruct (for_each_normal (iterrows d) validate_row domain_row_appends
              (fun x _ => validate_row_outcome x)) as [-> ->].
  reflexivity.
Qed.

(** The records of the result that carry the number of a row are the
    records of that row. *)
Lemma records_of_row self d i cells :
  df self = Some d ->
  nth_error (data d) i = Some cells ->
  filter (of_row (Z.of_nat i + 2)) (errors (fst (validate self))) =
  emitted (validate_row (Z.of_nat i, {| labels := columns d; cells := cells |})).
Proof.
  intros Hd Hi. rewrite (validate_run self d Hd). cbn [fst errors]. unfold row_errors.
  rewrite (filter_flat_map_only _ _ (iterrows d)
             (Z.of_nat i, {| labels := columns d; cells := cells |})).
  - apply filter_all. eapply Forall_impl; [| apply validate_row_tagged].
    intros rec Hr. unfold of_row. rewrite Hr. apply Z.eqb_refl.
  - apply NoDup_of_fst. apply enumerate_from_NoDup.
  - now apply iterrows_In.
  - intros [j row'] Hin' Hne.
    eapply Forall_impl; [| apply validate_row_tagged].
    intros rec Hr. unfold of_row. rewrite Hr.
    destruct (Z.eqb_spec (j + 2) (Z.of_nat i + 2)) as [E |]; [| reflexivity].
    exfalso. apply Hne. assert (j = Z.of_nat i) by lia. subst j. f_equal.
    eapply NoDup_fst_eq; [apply enumerate_from_NoDup | exact Hin' |].
    now apply iterrows_In.
Qed.

Lemma filter_andb {A : Type} (p q : A -> bool) (l : list A) :
  filter (fun x => p x && q x) l = filter q (filter p l).
Proof.
  induction l as [| x l IH]; simpl; [reflexivity |].
  destruct (p x); simpl; [destruct (q x) |]; now rewrite IH.
Qed.

Lemma records_of_row_type self d i cells ty :
  df self = Some d ->
  nth_error (data d) i = Some cells ->
  filter (of_row_type (Z.of_nat i + 2) ty) (errors (fst (validate self))) =
  filter (of_type ty)
    (emitted (validate_row (Z.of_nat i, {| labels := columns d; cells := cells |}))).
Proof.
  intros Hd Hi. unfold of_row_type. rewrite filter_andb.
  now rewrite (records_of_row self d i cells Hd Hi).
Qed.

Lemma parsed_all row m p sp t :
  price row "MAP" = inr m -> price row "MRP (O)" = inr p ->
  price row "Sale Price (inc tax)" = inr sp -> tax row = inr t ->
  parsed row = inr (m, p, sp, t).
Proof. intros H1 H2 H3 H4. unfold parsed. now rewrite H1, H2, H3, H4. Qed.

Lemma parsed_some_failure row :
  (exists e, price row "MAP" = inl e) \/ (exists e, price row "MRP (O)" = inl e) \/
  (exists e, price row "Sale Price (inc tax)" = inl e) \/ (exists e, tax row = inl e) ->
  exists e, parsed row = inl e.
Proof.
  unfold parsed. intros H.
  destruct (price row "MAP") as [e1 | m]; [eauto |].
  destruct (price row "MRP (O)") as [e2 | p]; [eauto |].
  destruct (price row "Sale Price (inc tax)") as [e3 | sp]; [eauto |].
  destruct (tax row) as [e4 | t]; [eauto |].
  destruct H as [[e H] | [[e H] | [[e H] | [e H]]]]; discriminate.
Qed.

(** C5: for a row whose four cells are converted, the tax cell is read as
    [float] of its string without the percent signs and multiplied by 100
    when it is below 1, the expected tax is 18 when the sale price is
    above 999 and 12 otherwise, and the row has a 'Tax Error' record
    exactly when the integer part of the tax rate exists and differs from
    the expected tax; there is then one such record. *)
Theorem C5_tax_error self d i cells m p sp t :
  df self = Some d ->
  nth_error (data d) i = Some cells ->
  price {| labels := columns d; cells := cells |} "MAP" = inr m ->
  price {| labels := columns d; cells := cells |} "MRP (O)" = inr p ->
  price {| labels := columns d; cells := cells |} "Sale Price (inc tax)" = inr sp ->
  tax {| labels := columns d; cells := cells |} = inr t ->
  (exists v, getitem {| labels := columns d; cells := cells |} "Tax Rate" = inr v /\
             PyFloat.of_string (PyStr.strip (PyStr.replace "%" "" (str v))) = inr t) /\
  percent t = (if PyFloat.ltb_Z t 1 then PyFloat.mul t (PyFloat.of_Z 100) else t) /\
  expected_tax sp = (if PyFloat.gtb_Z sp 999 then 18 else 12) /\
  filter (of_row_type (Z.of_nat i + 2) "Tax Error") (errors (fst (validate self))) =
    match PyFloat.to_int (percent t) with
    | inr n => if n =? expected_tax sp then []
               else [tax_error (Z.of_nat i + 2) n sp]
    | inl _ => []
    end /\
  ((exists rec, In rec (errors (fst (validate self))) /\
                Row rec = Z.of_nat i + 2 /\ Type_ rec = "Tax Error") <->
   (exists n, PyFloat.to_int (percent t) = inr n /\ n <> expected_tax sp)).
Proof.
  intros Hd Hi H1 H2 H3 H4.
  assert (E : filter (of_row_type (Z.of_nat i + 2) "Tax Error")
                     (errors (fst (validate self))) =
              match PyFloat.to_int (percent t) with
              | inr n => if n =? expected_tax sp then []
                         else [tax_error (Z.of_nat i + 2) n sp]
              | inl _ => []
              end).
  { rewrite (records_of_row_type self d i cells _ Hd Hi).
    destruct (validate_row_parsed (Z.of_nat i) _ m p sp t (parsed_all _ _ _ _ _ H1 H2 H3 H4))
      as [-> _].
    rewrite filter_app. unfold price_records, tax_records.
    destruct (PyFloat.geb m p); destruct (PyFloat.to_int (percent t)) as [e | n];
      try destruct (n =? expected_tax sp); reflexivity. }
  split; [| split; [reflexivity | split; [reflexivity | split; [exact E |]]]].
  - unfold tax in H4.
    destruct (getitem {| labels := columns d; cells := cells |} "Tax Rate") as [| v];
      [discriminate | eauto].
  - split.
    + intros (rec & Hin & Hr & Ht).
      assert (Hf : In rec (filter (of_row_type (Z.of_nat i + 2) "Tax Error")
                             (errors (fst (validate self))))).
      { apply filter_In. split; [assumption |].
        unfold of_row_type, of_row, of_type. rewrite Hr, Ht, Z.eqb_refl. reflexivity. }
      rewrite E in Hf. destruct (PyFloat.to_int (percent t)) as [e | n]; [contradiction |].
      destruct (Z.eqb_spec n (expected_tax sp)); [contradiction | eauto].
    + intros (n & Hn & Hne). rewrite Hn in E.
      destruct (Z.eqb_spec n (expected_tax sp)); [contradiction |].
      assert (Hf : In (tax_error (Z.of_nat i + 2) n sp)
                      (filter (of_row_type (Z.of_nat i + 2) "Tax Error")
                              (errors (fst (validate self)))))
        by (rewrite E; now left).
      apply filter_In in Hf. destruct Hf as [Hin _].
      exists (tax_error (Z.of_nat i + 2) n sp). auto.
Qed.

(** C6: for a row whose four cells are converted, the row has exactly one
    'Price Error' record when the MAP is greater than or equal to the MRP,
    and none otherwise. *)
Theorem C6_price_error self d i cells m p sp t :
  df self = Some d ->
  nth_error (data d) i = Some cells ->
  price {| labels := columns d; cells := cells |} "MAP" = inr m ->
  price {| labels := columns d; cells := cells |} "MRP (O)" = inr p ->
  price {| labels := columns d; cells := cells |} "Sale Price (inc tax)" = inr sp ->
  tax {| labels := columns d; cells := cells |} = inr t ->
  filter (of_row_type (Z.of_nat i + 2) "Price Error") (errors (fst (validate self))) =
    if PyFloat.geb m p then [price_error (Z.of_nat i + 2) m p] else [].
Proof.
  intros Hd Hi H1 H2 H3 H4.
  rewrite (records_of_row_type self d i cells _ Hd Hi).
  destruct (validate_row_parsed (Z.of_nat i) _ m p sp t (parsed_all _ _ _ _ _ H1 H2 H3 H4))
    as [-> _].
  rewrite filter_app. unfold price_records, tax_records.
  destruct (PyFloat.geb m p); destruct (PyFloat.to_int (percent t)) as [e | n];
    try destruct (n =? expected_tax sp); reflexivity.
Qed.

(** C7: for a row in which the conversion of a cell raises (a cell that is
    not a number, or a missing column), the records of the row are exactly
    one 'Data Error' record with the message of the first exception
    raised, so neither the price check nor the tax check has a record for
    the row; the call returns, and every row of the table has in the
    result the records it has on its own. *)
Theorem C7_data_error self d i cells :
  df self = Some d ->
  nth_error (data d) i = Some cells ->
  (exists e, price {| labels := columns d; cells := cells |} "MAP" = inl e) \/
  (exists e, price {| labels := columns d; cells := cells |} "MRP (O)" = inl e) \/
  (exists e, price {| labels := columns d; cells := cells |} "Sale Price (inc tax)" = inl e) \/
  (exists e, tax {| labels := columns d; cells := cells |} = inl e) ->
  exists e,
    parsed {| labels := columns d; cells := cells |} = inl e /\
    filter (of_row (Z.of_nat i + 2)) (errors (fst (validate self))) =
      [{| Row := Z.of_nat i + 2; Type_ := "Data Error";
          Error := "Invalid data in row: " ++ str_exn e |}] /\
    snd (validate self) = inr tt /\
    forall j cells',
      nth_error (data d) j = Some cells' ->
      filter (of_row (Z.of_nat j + 2)) (errors (fst (validate self))) =
      emitted (validate_row (Z.of_nat j, {| labels := columns d; cells := cells' |})).
Proof.
  intros Hd Hi Hfail. destruct (parsed_some_failure _ Hfail) as [e He].
  exists e. split; [exact He |]. split; [| split].
  - rewrite (records_of_row self d i cells Hd Hi).
    now destruct (validate_row_failed (Z.of_nat i) _ e He) as [-> _].
  - now rewrite (validate_run self d Hd).
  - intros j cells' Hj. now apply records_of_row.
Qed.
End DomainRules.

(** ** The matcher on the shapes of the two patterns *)

Section Matcher.
Import Re.

Lemma append_assoc (a b c : string) : ((a ++ b) ++ c = a ++ (b ++ c))%string.
Proof. induction a as [| x a IH]; simpl; [reflexivity | now rewrite IH]. Qed.

Lemma append_empty_r (a : string) : (a ++ "")%string = a.
Proof. induction a as [| x a IH]; simpl; [reflexivity | now rewrite IH]. Qed.

Lemma still_start_false (pre : string) : still_start false pre = false.
Proof. now destruct pre. Qed.

(** A repeat of a character class matches a run of characters of the
    class, of a length within the bounds. *)
Lemma rep_chr (p : ascii -> bool) (k : cont) :
  forall fuel lo hi at0 s,
    (String.length s < fuel)%nat ->
    rep (match_from (Chr p)) fuel lo hi at0 s k = true <->
    exists pre post,
      s = (pre ++ post)%string /\ PyStr.forallb p pre = true /\
      (lo <= String.length pre)%nat /\ within hi (String.length pre) /\
      k (still_start at0 pre) post = true.
Proof.
  induction fuel as [| f IH]; intros lo hi at0 s Hlen; [lia |].
  cbn [rep match_from]. rewrite orb_true_iff. split.
  - intros [H | H].
    + assert (Hhi : hi <> Some O) by (intros ->; discriminate).
      assert (Hs : exists c s', s = String c s' /\ p c = true /\
                   rep (match_from (Chr p)) f (pred lo) (option_map pred hi) false s' k = true).
      { destruct hi as [[| h] |]; [congruence | |];
          (destruct s as [| c s']; [discriminate |]);
          apply andb_true_iff in H; destruct H as [Hp H];
          apply andb_true_iff in H; destruct H as [_ H]; eauto. }
      destruct Hs as (c & s' & -> & Hp & Hrep).
      apply IH in Hrep; [| cbn in Hlen; lia].
      destruct Hrep as (pre & post & -> & Hall & Hlo & Hin & Hk).
      exists (String c pre), post. cbn. rewrite Hp, Hall.
      rewrite still_start_false in Hk. repeat split; auto; [lia |].
      destruct hi as [[| h] |]; cbn in *; [congruence | lia | exact I].
    + destruct lo; [| discriminate]. exists EmptyString, s. cbn.
      repeat split; auto. destruct hi; cbn; [lia | exact I].
  - intros (pre & post & -> & Hall & Hlo & Hin & Hk).
    destruct pre as [| c pre].
    + right. cbn in *. destruct lo; [exact Hk | lia].
    + left. cbn in Hall. apply andb_true_iff in Hall. destruct Hall as [Hp Hall].
      assert (Hrep : rep (match_from (Chr p)) f (pred lo) (option_map pred hi) false
                         (pre ++ post)%string k = true).
      { apply IH; [cbn in Hlen; lia |]. exists pre, post.
        rewrite still_start_false. repeat split; auto; [cbn in Hlo; lia |].
        destruct hi as [h |]; cbn in *; [lia | exact I]. }
      assert (Hlt : (String.length (pre ++ post) <? String.length (String c pre ++ post))%nat
                    = true) by (apply Nat.ltb_lt; cbn; lia).
      destruct hi as [[| h] |]; cbn in *; [lia | |]; now rewrite Hp, Hlt, Hrep.
Qed.

(** [p+] *)
Lemma match_plus (p : ascii -> bool) (at0 : bool) (s : string) (k : cont) :
  match_from (plus (Chr p)) at0 s k = true <->
  exists pre post,
    s = (pre ++ post)%string /\ pre <> EmptyString /\ PyStr.forallb p pre = true /\
    k false post = true.
Proof.
  change (match_from (plus (Chr p)) at0 s k)
    with (rep (match_from (Chr p)) (S (String.length s)) 1 None at0 s k).
  rewrite rep_chr by lia. split.
  - intros (pre & post & -> & Hall & Hlo & _ & Hk).
    destruct pre as [| c pre]; [cbn in Hlo; lia |]. exists (String c pre), post.
    repeat split; auto. discriminate.
  - intros (pre & post & -> & Hne & Hall & Hk).
    destruct pre as [| c pre]; [congruence |]. exists (String c pre), post.
    repeat split; auto. cbn. lia.
Qed.

(** A literal character. *)
Lemma match_lit (c : ascii) (at0 : bool) (s : string) (k : cont) :
  match_from (lit c) at0 s k = true <->
  exists post, s = String c post /\ k false post = true.
Proof.
  unfold lit. cbn [match_from]. split.
  - destruct s as [| a s]; [discriminate |]. intros H.
    apply andb_true_iff in H. destruct H as [Ha Hk].
    apply Ascii.eqb_eq in Ha. subst a. eauto.
  - intros (post & -> & Hk). now rewrite Ascii.eqb_refl.
Qed.

Lemma match_cat (r1 r2 : regex) (at0 : bool) (s : string) (k : cont) :
  match_from (Cat r1 r2) at0 s k =
  match_from r1 at0 s (fun b s' => match_from r2 b s' k).
Proof. reflexivity. Qed.

Lemma match_bol (s : string) (k : cont) : match_from Bol true s k = k true s.
Proof. reflexivity. Qed.

Lemma match_eol (at0 : bool) (s : string) (k : cont) :
  match_from Eol at0 s k = at_end s && k at0 s.
Proof. reflexivity. Qed.

Lemma at_end_iff (s : string) :
  at_end s = true <-> s = EmptyString \/ s = String PyStr.newline EmptyString.
Proof.
  unfold at_end. destruct s as [| c [| d s]]; split; intros H; auto.
  - right. apply Ascii.eqb_eq in H. now subst.
  - destruct H as [H | H]; [discriminate |]. inversion H. apply Ascii.eqb_refl.
  - discriminate.
  - destruct H; discriminate.
Qed.
End Matcher.

(** ** The two predicates and the specification *)

Section Predicates.
Import ExcelValidator.

(** [s.replace('.', '')] removes every point. *)
Lemma replace_point s : PyStr.replace "." "" s = PyStr.remove_all "." s.
Proof.
  unfold PyStr.replace. induction s as [| a s IH]; [reflexivity |].
  cbn [PyStr.replace_from PyStr.remove_all prefix String.length].
  rewrite Ascii.eqb_sym.
  destruct (Ascii.eqb_spec "."%char a) as [<- | Hne].
  - destruct (ascii_dec "." "."); [| congruence].
    destruct s; cbn [prefix]; exact IH.
  - destruct (ascii_dec "." a); [contradiction |]. now rewrite IH.
Qed.

(** The code tests the string without any of its points. *)
Lemma is_numeric_str s :
  is_numeric (VStr s) = PyStr.isdigit (PyStr.remove_all "." s).
Proof. unfold is_numeric. cbn [str]. now rewrite replace_point. Qed.

(** On a string with at most one point, the code and the specification
    agree. *)
Lemma is_numeric_one_point s :
  (PyStr.count "." s <= 1)%nat -> is_numeric (VStr s) = Spec.isNumericString s.
Proof.
  intros H. rewrite is_numeric_str. unfold Spec.isNumericString. f_equal.
  induction s as [| a s IH]; [reflexivity |]. cbn [PyStr.remove_all Spec.remove_first PyStr.count] in *.
  destruct (Ascii.eqb a "."); [| f_equal; apply IH; lia].
  assert (H0 : PyStr.count "." s = O) by lia. clear IH H.
  induction s as [| b s IH]; [reflexivity |]. cbn [PyStr.remove_all PyStr.count] in *.
  destruct (Ascii.eqb b "."); [discriminate |]. f_equal. apply IH. exact H0.
Qed.

(** C1: the numeric check accepts "12.5" and "125" and rejects "-5", as
    the specification says, but it removes every point, not at most one:
    it accepts "1.2.3", which the predicate of the specification rejects,
    and a run on a cell "1.2.3" under a rule of type 'numeric' has no 'Not
    a valid number' record. *)
Theorem C1_numeric_accepts_several_points :
  is_numeric (VStr "12.5") = true /\ is_numeric (VStr "125") = true /\
  is_numeric (VStr "-5") = false /\
  is_numeric (VStr "1.2.3") = true /\ Spec.isNumericString "1.2.3" = false /\
  validate_data {| validation_results := [];
                   df := Some {| columns := ["Age"]; data := [[VStr "1.2.3"]] |} |}
                [("Age", {| required := false; type := Some "numeric"; min := None;
                            max := None; allowed_values := None |})] =
  ({| validation_results := [];
      df := Some {| columns := ["Age"]; data := [[VStr "1.2.3"]] |} |}, inr tt).
Proof. repeat split; vm_compute; reflexivity. Qed.

(** The strings that the email pattern matches from their start, with what
    the [$] leaves: a local part, [@], a domain, a point, a top-level part,
    and the end of the string or its final newline. *)
Lemma email_match_from (s : string) (K : Re.cont) :
  Re.match_from email_pattern true s K = true <->
  exists l d t e,
    s = (l ++ String "@" (d ++ String "." (t ++ e)))%string /\
    l <> EmptyString /\ PyStr.forallb email_class l = true /\
    d <> EmptyString /\ PyStr.forallb email_class d = true /\
    t <> EmptyString /\ PyStr.forallb PyStr.is_word t = true /\
    Re.at_end e = true /\ K false e = true.
Proof.
  unfold email_pattern. cbn [Re.seq]. rewrite match_cat, match_bol, match_cat. split.
  - intros H. apply match_plus in H. destruct H as (l & s1 & -> & Hl & Hal & H).
    rewrite match_cat in H. apply match_lit in H. destruct H as (s2 & -> & H).
    rewrite match_cat in H. apply match_plus in H.
    destruct H as (d & s3 & -> & Hd & Had & H).
    rewrite match_cat in H. apply match_lit in H. destruct H as (s4 & -> & H).
    rewrite match_cat in H. apply match_plus in H.
    destruct H as (t & e & -> & Ht & Hat & H).
    rewrite match_eol in H. apply andb_true_iff in H. destruct H as [He HK].
    exists l, d, t, e. repeat split; assumption.
  - intros (l & d & t & e & -> & Hl & Hal & Hd & Had & Ht & Hat & He & HK).
    apply match_plus. exists l, (String "@" (d ++ String "." (t ++ e)))%string.
    repeat split; auto. rewrite match_cat. apply match_lit. eexists. split; [reflexivity |].
    rewrite match_cat. apply match_plus. exists d, (String "." (t ++ e))%string.
    repeat split; auto. rewrite match_cat. apply match_lit. eexists. split; [reflexivity |].
    rewrite match_cat. apply match_plus. exists t, e. repeat split; auto.
    rewrite match_eol. now rewrite He, HK.
Qed.

(** The email check accepts the strings that the pattern matches as a
    whole, and these strings followed by one newline. *)
Theorem validate_email_newline (s : string) :
  validate_email (VStr s) = true <->
  Spec.isValidEmail s = true \/
  exists s0, s = (s0 ++ String PyStr.newline EmptyString)%string /\
             Spec.isValidEmail s0 = true.
Proof.
  unfold validate_email, Spec.isValidEmail, Re.match_, Re.fullmatch. cbn [str].
  rewrite !email_match_from. split.
  - intros (l & d & t & e & -> & Hl & Hal & Hd & Had & Ht & Hat & He & _).
    apply at_end_iff in He. destruct He as [-> | ->].
    + left. exists l, d, t, EmptyString. repeat split; auto.
    + right. exists (l ++ String "@" (d ++ String "." t))%string. split.
      * rewrite append_assoc. cbn. rewrite append_assoc. reflexivity.
      * rewrite email_match_from. exists l, d, t, EmptyString.
        rewrite append_empty_r. repeat split; auto.
  - intros [(l & d & t & e & -> & Hl & Hal & Hd & Had & Ht & Hat & He & HK)
           | (s0 & -> & H)].
    + exists l, d, t, e. repeat split; auto.
    + rewrite email_match_from in H.
      destruct H as (l & d & t & e & -> & Hl & Hal & Hd & Had & Ht & Hat & He & HK).
      apply String.eqb_eq in HK. subst e.
      exists l, d, t, (String PyStr.newline EmptyString). repeat split; auto.
      rewrite append_empty_r, append_assoc. cbn. rewrite append_assoc. reflexivity.
Qed.

(** C9: the email check accepts "a@b.com" and rejects "a@b" and
    "not-an-email", as the specification says, but its [$] also matches
    before a newline that ends the string: it accepts "a@b.com" followed
    by a newline, which is not a match of the whole string. *)
Theorem C9_email_accepts_trailing_newline :
  validate_email (VStr "a@b.com") = true /\ validate_email (VStr "a@b") = false /\
  validate_email (VStr "not-an-email") = false /\
  validate_email (VStr Examples.email_newline) = true /\
  Spec.isValidEmail Examples.email_newline = false.
Proof. repeat split; vm_compute; reflexivity. Qed.
End Predicates.

(** ** Runs do not depend on earlier runs *)

(** C8: a call of [validate_data], or of [validate], on an object whose
    table is unchanged gives the same object and the same outcome as the
    call before it, record for record; and the result of a call depends on
    the table (and the rules) only, whatever the result list held before:
    the list is replaced at the start of the call. *)
Theorem C8_validate_idempotent :
  (forall self rules,
      ExcelValidator.validate_data (fst (ExcelValidator.validate_data self rules)) rules =
      ExcelValidator.validate_data self rules) /\
  (forall self self' rules,
      ExcelValidator.df self = ExcelValidator.df self' ->
      ExcelValidator.validate_data self rules = ExcelValidator.validate_data self' rules) /\
  (forall self,
      EcommerceValidator.validate (fst (EcommerceValidator.validate self)) =
      EcommerceValidator.validate self) /\
  (forall self self',
      EcommerceValidator.df self = EcommerceValidator.df self' ->
      EcommerceValidator.errors (fst (EcommerceValidator.validate self)) =
      EcommerceValidator.errors (fst (EcommerceValidator.validate self')) /\
      snd (EcommerceValidator.validate self) = snd (EcommerceValidator.validate self')).
Proof.
  split; [| split; [| split]].
  - intros self rules. unfold ExcelValidator.validate_data.
    destruct (ExcelValidator.df self) as [d |]; cbn.
    + destruct (for_each (iterrows d) (ExcelValidator.validate_row d rules) [])
        as [res out] eqn:E.
      cbn. now rewrite E.
    + reflexivity.
  - intros self self' rules H. unfold ExcelValidator.validate_data. now rewrite H.
  - intros self. destruct (EcommerceValidator.df self) as [d |] eqn:Hd.
    + rewrite (validate_run self d Hd). cbn [fst]. apply validate_run. reflexivity.
    + unfold EcommerceValidator.validate, EcommerceValidator.validate_prices_and_tax.
      cbn. rewrite Hd. reflexivity.
  - intros self self' H. destruct (EcommerceValidator.df self) as [d |] eqn:Hd.
    + rewrite (validate_run self d Hd), (validate_run self' d (eq_sym H)). auto.
    + unfold EcommerceValidator.validate, EcommerceValidator.validate_prices_and_tax.
      cbn. rewrite <- H, Hd. cbn. auto.
Qed.

(** ** The theorems at concrete tables *)

Ltac distinct_keys :=
  repeat (constructor; [cbn; intuition discriminate |]); constructor.

(** C2 at the table with the one cell "abc" under the rules of [main]. *)
Lemma C2_witness :
  exists e' v',
    snd (ExcelValidator.validate_data (Examples.loaded (Examples.ages [VStr "abc"]))
           ExcelValidator.validation_rules) = inl e' /\
    float_ v' = inl e'.
Proof.
  apply (C2_conversion_fault_aborts (Examples.loaded (Examples.ages [VStr "abc"]))
           (Examples.ages [VStr "abc"]) ExcelValidator.validation_rules
           0 [VStr "abc"] "Age" ExcelValidator.age_rule (VStr "abc")
           (ValueError "could not convert string to float: 'abc'")).
  - reflexivity.
  - reflexivity.
  - cbn. auto.
  - reflexivity.
  - reflexivity.
  - reflexivity.
  - left. discriminate.
  - reflexivity.
Defined.

(** C3 as stated fails when the run is aborted before it reaches the cell.
    Under the rule of 'Age' (required, numeric, 0 to 120), take the table
    with the cells "abc" and empty: the cell of the second row is an empty
    cell of a required column, and it has no record, not one, since
    [float("abc")] raises on the first row. *)
Lemma C3_counterexample :
  let d := Examples.ages [VStr "abc"; NaN] in
  let rules := [("Age", ExcelValidator.age_rule)] in
  let run := ExcelValidator.validate_data (Examples.loaded d) rules in
  nth_error (data d) 1 = Some [NaN] /\
  has_column d "Age" = true /\
  getitem {| labels := columns d; cells := [NaN] |} "Age" = inr NaN /\
  isna NaN = true /\
  ExcelValidator.required ExcelValidator.age_rule = true /\
  snd run = inl (ValueError "could not convert string to float: 'abc'") /\
  filter (ExcelValidator.of_cell 3 "Age") (ExcelValidator.validation_results (fst run)) = [] /\
  filter (ExcelValidator.of_cell 3 "Age") (ExcelValidator.validation_results (fst run))
    <> [ExcelValidator.required_empty 3 "Age" NaN].
Proof. repeat split; try (vm_compute; reflexivity). vm_compute. discriminate. Qed.

(** C3 at the table with the ages 30 and empty. *)
Lemma C3_witness :
  filter (ExcelValidator.of_cell 3 "Age")
         (ExcelValidator.validation_results
            (fst (ExcelValidator.validate_data
                    (Examples.loaded (Examples.ages [VInt 30; NaN]))
                    [("Age", ExcelValidator.age_rule)]))) =
    [ExcelValidator.required_empty 3 "Age" NaN] /\
  ExcelValidator.validate_cell (Examples.ages [VInt 30; NaN]) 3
    {| labels := ["Age"]; cells := [NaN] |} ("Age", ExcelValidator.age_rule) =
    append (ExcelValidator.required_empty 3 "Age" NaN).
Proof.
  apply (C3_empty_cell (Examples.loaded (Examples.ages [VInt 30; NaN]))
           (Examples.ages [VInt 30; NaN]) [("Age", ExcelValidator.age_rule)]
           1 [NaN] "Age" ExcelValidator.age_rule NaN).
  - reflexivity.
  - distinct_keys.
  - vm_compute. reflexivity.
  - reflexivity.
  - cbn. auto.
  - reflexivity.
  - reflexivity.
  - reflexivity.
Defined.

(** C10 as stated fails when the run is aborted.  With the rules of a
    column 'Zip', which the table does not have, and of 'Age', take the
    table with the ages "abc" and 5: it has two rows and one 'Column not
    found in Excel file' record for 'Zip', since [float("abc")] raises on
    the first row. *)
Lemma C10_counterexample :
  let d := Examples.ages [VStr "abc"; VInt 5] in
  let rules := [("Zip", ExcelValidator.no_rule); ("Age", ExcelValidator.age_rule)] in
  let run := ExcelValidator.validate_data (Examples.loaded d) rules in
  has_column d "Zip" = false /\
  length (data d) = 2%nat /\
  snd run = inl (ValueError "could not convert string to float: 'abc'") /\
  filter (ExcelValidator.of_column "Zip") (ExcelValidator.validation_results (fst run))
    = [ExcelValidator.not_found 2 "Zip"] /\
  length (filter (ExcelValidator.of_column "Zip")
                 (ExcelValidator.validation_results (fst run))) <> length (data d).
Proof. repeat split; try (vm_compute; reflexivity). vm_compute. discriminate. Qed.

(** C10 at a table of two rows, for the column 'Email' of the rules of
    [main]. *)
Lemma C10_witness :
  let res := ExcelValidator.validation_results
               (fst (ExcelValidator.validate_data
                       (Examples.loaded (Examples.ages [VInt 30; VInt 40]))
                       ExcelValidator.validation_rules)) in
  filter (ExcelValidator.of_column "Email") res =
    [ExcelValidator.not_found 2 "Email"; ExcelValidator.not_found 3 "Email"] /\
  length (filter (ExcelValidator.of_column "Email") res) = 2%nat /\
  (data (Examples.ages [VInt 30; VInt 40]) = [] -> filter (ExcelValidator.of_column "Email") res = []).
Proof.
  apply (C10_missing_column (Examples.loaded (Examples.ages [VInt 30; VInt 40]))
           (Examples.ages [VInt 30; VInt 40]) ExcelValidator.validation_rules
           "Email" ExcelValidator.email_rule).
  - reflexivity.
  - distinct_keys.
  - vm_compute. reflexivity.
  - cbn. auto.
  - reflexivity.
Defined.

(** C4 at the cell "-5" under the rule of 'Age'. *)
Lemma C4_witness :
  exists rest,
    emitted (ExcelValidator.validate_cell (Examples.ages [VStr "-5"]) 2
               {| labels := ["Age"]; cells := [VStr "-5"] |}
               ("Age", ExcelValidator.age_rule)) =
    ExcelValidator.not_a_number 2 "Age" (VStr "-5")
      :: ExcelValidator.below_minimum 2 "Age" (VStr "-5") (ExcelValidator.NInt 0) :: rest.
Proof.
  apply (proj1 C4_type_and_range_both_fire (Examples.ages [VStr "-5"]) 2
           {| labels := ["Age"]; cells := [VStr "-5"] |} "Age" ExcelValidator.age_rule
           (VStr "-5") (ExcelValidator.NInt 0) (PyFloat.of_Z (-5))).
  all: vm_compute; reflexivity.
Defined.

(** C5 at a row with the sale price 1200 and the tax rate "12%". *)
Lemma C5_witness :
  let row := [VInt 100; VInt 200; VInt 1200; VStr "12%"] in
  let self := Examples.uploaded (Examples.prices [row]) in
  filter (EcommerceValidator.of_row_type 2 "Tax Error")
         (EcommerceValidator.errors (fst (EcommerceValidator.validate self))) =
    [EcommerceValidator.tax_error 2 12 (PyFloat.of_Z 1200)].
Proof.
  intros row self.
  refine (proj1 (proj2 (proj2 (proj2
            (C5_tax_error self (Examples.prices [row]) 0 row
               (PyFloat.of_Z 100) (PyFloat.of_Z 200) (PyFloat.of_Z 1200) (PyFloat.of_Z 12)
               eq_refl eq_refl _ _ _ _))))).
  all: vm_compute; reflexivity.
Defined.

(** C6 at a row with the MAP 100 and the MRP 90. *)
Lemma C6_witness :
  let row := [VInt 100; VInt 90; VInt 1200; VStr "18%"] in
  let self := Examples.uploaded (Examples.prices [row]) in
  filter (EcommerceValidator.of_row_type 2 "Price Error")
         (EcommerceValidator.errors (fst (EcommerceValidator.validate self))) =
    [{| EcommerceValidator.Row := 2; EcommerceValidator.Type_ := "Price Error";
        EcommerceValidator.Error :=
          "MAP (₹100.00) is greater than or equal to MRP (₹90.00)" |}].
Proof.
  intros row self.
  apply (C6_price_error self (Examples.prices [row]) 0 row
           (PyFloat.of_Z 100) (PyFloat.of_Z 90) (PyFloat.of_Z 1200) (PyFloat.of_Z 18)).
  all: vm_compute; reflexivity.
Defined.

(** C7 at a table whose first row has the MAP "abc". *)
Lemma C7_witness :
  let bad := [VStr "abc"; VInt 90; VInt 1200; VStr "18%"] in
  let good := [VInt 100; VInt 90; VInt 1200; VStr "18%"] in
  let self := Examples.uploaded (Examples.prices [bad; good]) in
  exists e,
    EcommerceValidator.parsed
      {| labels := columns (Examples.prices [bad; good]); cells := bad |} = inl e /\
    filter (EcommerceValidator.of_row 2) (EcommerceValidator.errors (fst (EcommerceValidator.validate self))) =
      [{| EcommerceValidator.Row := 2; EcommerceValidator.Type_ := "Data Error";
          EcommerceValidator.Error := "Invalid data in row: " ++ str_exn e |}] /\
    snd (EcommerceValidator.validate self) = inr tt /\
    forall j cells',
      nth_error (data (Examples.prices [bad; good])) j = Some cells' ->
      filter (EcommerceValidator.of_row (Z.of_nat j + 2))
             (EcommerceValidator.errors (fst (EcommerceValidator.validate self))) =
      emitted (EcommerceValidator.validate_row
                 (Z.of_nat j, {| labels := columns (Examples.prices [bad; good]);
                                 cells := cells' |})).
Proof.
  intros bad good self.
  apply (C7_data_error self (Examples.prices [bad; good]) 0 bad).
  - reflexivity.
  - reflexivity.
  - left. exists (ValueError "could not convert string to float: 'abc'").
    vm_compute. reflexivity.
Defined.

(** C8 at an object that still holds a record of an earlier run. *)
Lemma C8_witness :
  let stale := {| ExcelValidator.validation_results :=
                    [ExcelValidator.not_found 9 "Old"];
                  ExcelValidator.df := Some (Examples.ages [VStr "-5"]) |} in
  ExcelValidator.validate_data stale ExcelValidator.validation_rules =
  ExcelValidator.validate_data (Examples.loaded (Examples.ages [VStr "-5"]))
    ExcelValidator.validation_rules.
Proof.
  intros stale.
  apply (proj1 (proj2 C8_validate_idempotent) stale
           (Examples.loaded (Examples.ages [VStr "-5"])) ExcelValidator.validation_rules).
  reflexivity.
Defined.

(** * Further properties of the generic rule engine *)

Section StmtInvariants.
Context {R : Type}.

(** What a loop has appended satisfies what the records of its bodies
    satisfy, also when the loop ends with an exception. *)
Lemma for_each_emitted_Forall {A : Type} (P : R -> Prop) (l : list A)
    (body : A -> @stmt R unit) :
  (forall x, appends (body x)) ->
  (forall x, In x l -> Forall P (emitted (body x))) ->
  Forall P (emitted (for_each l body)).
Proof.
  intros Ha. induction l as [| x l IH]; intros H; simpl.
  - constructor.
  - rewrite emitted_bind by (auto using appends_for_each).
    apply Forall_app. split; [apply H; now left |].
    destruct (outcome (body x)); [constructor |].
    apply IH. intros y Hy. apply H. now right.
Qed.

(** A loop over no element appends nothing and ends normally. *)
Lemma for_each_nil {A : Type} (body : A -> @stmt R unit) (st : list R) :
  for_each [] body st = (st, inr tt).
Proof. reflexivity. Qed.
End StmtInvariants.

Section GenericRuns.
Import ExcelValidator.

Lemma length_enumerate_from {A : Type} (l : list A) (k : Z) :
  length (enumerate_from k l) = length l.
Proof.
  revert k. induction l as [| x l IH]; intros k; cbn; [reflexivity | now rewrite IH].
Qed.

Lemma length_iterrows (d : DataFrame) : length (iterrows d) = length (data d).
Proof. unfold iterrows. now rewrite length_enumerate_from, length_map. Qed.

Lemma iterrows_index (d : DataFrame) (j : Z) (row : Series) :
  In (j, row) (iterrows d) ->
  0 <= j < Z.of_nat (length (data d)) /\
  exists cells, nth_error (data d) (Z.to_nat j) = Some cells /\
                row = {| labels := columns d; cells := cells |}.
Proof.
  unfold iterrows. intros H. apply enumerate_from_In in H. destruct H as [Hj H].
  rewrite Z.sub_0_r, nth_error_map in H.
  destruct (nth_error (data d) (Z.to_nat j)) as [cells |] eqn:E; [| discriminate].
  inversion H; subst. split; [| eauto].
  assert (Z.to_nat j < length (data d))%nat by (apply nth_error_Some; congruence).
  lia.
Qed.

Lemma validate_data_normal_iff self d rules :
  df self = Some d ->
  snd (validate_data self rules) = inr tt <->
  (forall i cells c r v,
      nth_error (data d) i = Some cells -> In (c, r) rules ->
      has_column d c = true ->
      getitem {| labels := columns d; cells := cells |} c = inr v ->
      isna v = false -> min r <> None \/ max r <> None ->
      exists x, float_ v = inr x).
Proof.
  intros Hd. rewrite (validate_data_run self d rules Hd). cbn [snd]. split.
  - intros Ho i cells c r v Hi Hin Hc Hv Hna Hb.
    destruct (float_ v) as [e | x] eqn:He; [| eauto]. exfalso.
    pose proof (for_each_normal_inv _ _ (validate_row_appends d rules) Ho _
                  (iterrows_In d i cells Hi)) as Hrow.
    unfold validate_row in Hrow.
    pose proof (for_each_normal_inv _ _ (validate_cell_appends d _ _) Hrow _ Hin) as Hcell.
    rewrite (validate_cell_raises d _ _ c r v e Hc Hv Hna Hb He) in Hcell. discriminate.
  - intros H.
    apply (for_each_normal (iterrows d) (validate_row d rules) (validate_row_appends d rules)).
    intros [j row] Hin. unfold validate_row.
    apply (for_each_normal rules _ (validate_cell_appends d (j + 2) row)).
    intros [c r] Hr.
    destruct (outcome (validate_cell d (j + 2) row (c, r))) as [e | []] eqn:Ho;
      [| reflexivity].
    exfalso.
    destruct (validate_cell_fault d (j + 2) row c r e (iterrows_labels d j row Hin) Ho)
      as (v & Hv & Hna & He & Hb).
    destruct (iterrows_index d j row Hin) as (_ & cells & Hn & ->).
    assert (Hc : has_column d c = true).
    { unfold has_column. unfold getitem in Hv. cbn [labels] in Hv.
      destruct (index_of c (columns d)); [reflexivity | discriminate]. }
    destruct (H _ cells c r v Hn Hr Hc Hv Hna Hb) as [x Hx]. congruence.
Qed.

(** X1: with a table loaded, [validate_data] ends normally exactly when
    every cell that is not empty, in a column of the table under a rule
    with ['min'] or ['max'], is accepted by [float]: nothing else makes it
    raise. *)
Theorem X1_normal_iff_cells_convert self d rules :
  df self = Some d ->
  snd (validate_data self rules) = inr tt <->
  (forall i cells c r v,
      nth_error (data d) i = Some cells -> In (c, r) rules ->
      has_column d c = true ->
      getitem {| labels := columns d; cells := cells |} c = inr v ->
      isna v = false -> min r <> None \/ max r <> None ->
      exists x, float_ v = inr x).
Proof. apply validate_data_normal_iff. Qed.

(** X2: every record of the result, also of a run that raised, has the
    number of a row of the table (from 2 to the number of rows plus 1) and
    the column of an entry of the rules. *)
Theorem X2_records_within_table self d rules :
  df self = Some d ->
  Forall (fun rec => 2 <= Row rec <= Z.of_nat (length (data d)) + 1 /\
                     In (Column rec) (map fst rules))
         (validation_results (fst (validate_data self rules))).
Proof.
  intros Hd. rewrite (validate_data_run self d rules Hd). cbn [fst validation_results].
  apply for_each_emitted_Forall; [apply validate_row_appends |].
  intros [j row] Hin. unfold validate_row.
  apply for_each_emitted_Forall; [apply validate_cell_appends |].
  intros [c r] Hr. eapply Forall_impl; [| apply validate_cell_tagged].
  intros rec [HR HC]. destruct (iterrows_index d j row Hin) as (Hj & _).
  split; [lia |]. rewrite HC. now apply (in_map fst) in Hr.
Qed.

Lemma length_emitted_bind {A B : Type} (m : stmt A) (f : A -> stmt B) (k : nat) :
  appends (R := record) m -> (forall a, appends (f a)) ->
  (forall a, (length (emitted (f a)) <= k)%nat) ->
  (length (emitted (bind m f)) <= length (emitted m) + k)%nat.
Proof.
  intros Hm Hf Hk. rewrite emitted_bind, length_app by assumption.
  destruct (outcome m) as [e | a]; [cbn; lia | specialize (Hk a); lia].
Qed.

Lemma length_emitted_for_each {A : Type} (l : list A) (body : A -> stmt unit) (b : nat) :
  (forall x, appends (R := record) (body x)) ->
  (forall x, In x l -> (length (emitted (body x)) <= b)%nat) ->
  (length (emitted (for_each l body)) <= b * length l)%nat.
Proof.
  intros Ha. induction l as [| x l IH]; intros H; simpl.
  - cbn. lia.
  - pose proof (H x (or_introl eq_refl)) as Hx.
    assert (IH' : (length (emitted (for_each l body)) <= b * length l)%nat)
      by (apply IH; intros y Hy; apply H; now right).
    pose proof (length_emitted_bind (body x) (fun _ => for_each l body) _
                  (Ha x) (fun _ => appends_for_each l body Ha) (fun _ => IH')).
    lia.
Qed.

Lemma check_type_length rn c r v : (length (emitted (check_type rn c r v)) <= 1)%nat.
Proof.
  unfold check_type. destruct (type r); [| cbn; lia].
  repeat match goal with |- context [if ?b then _ else _] => destruct b end; cbn; lia.
Qed.

Lemma check_min_length rn c r v : (length (emitted (check_min rn c r v)) <= 1)%nat.
Proof.
  unfold check_min. destruct (min r); [| cbn; lia].
  unfold emitted, bind, eval. destruct (float_ v); [cbn; lia |].
  destruct (lt_num _ _); cbn; lia.
Qed.

Lemma check_max_length rn c r v : (length (emitted (check_max rn c r v)) <= 1)%nat.
Proof.
  unfold check_max. destruct (max r); [| cbn; lia].
  unfold emitted, bind, eval. destruct (float_ v); [cbn; lia |].
  destruct (gt_num _ _); cbn; lia.
Qed.

Lemma check_allowed_length rn c r v :
  (length (emitted (check_allowed rn c r v)) <= 1)%nat.
Proof.
  unfold check_allowed. destruct (allowed_values r); [| cbn; lia].
  destruct (negb _); cbn; lia.
Qed.

(** A cell has at most four records: one per check. *)
Lemma validate_cell_length d rn row item :
  (length (emitted (validate_cell d rn row item)) <= 4)%nat.
Proof.
  destruct item as [c r]. destruct (has_column d c) eqn:Hc.
  - destruct (getitem row c) as [e | v] eqn:Hv.
    + unfold validate_cell. rewrite Hc. cbn [negb].
      unfold emitted, bind, eval. rewrite Hv. cbn. lia.
    + destruct (isna v) eqn:Hna; [destruct (required r) eqn:Hr |].
      * rewrite (validate_cell_required_empty d rn row c r v) by assumption. cbn. lia.
      * rewrite (validate_cell_empty d rn row c r v) by assumption. cbn. lia.
      * rewrite (validate_cell_present d rn row c r v) by assumption.
        pose proof (check_type_length rn c r v) as Lt.
        pose proof (check_min_length rn c r v) as Lmin.
        pose proof (check_max_length rn c r v) as Lmax.
        pose proof (check_allowed_length rn c r v) as La.
        assert (H3 : (length (emitted (check_max rn c r v ;;; check_allowed rn c r v))
                      <= 2)%nat).
        { pose proof (length_emitted_bind (check_max rn c r v)
                        (fun _ => check_allowed rn c r v) 1
                        (check_max_appends _ _ _ _)
                        (fun _ => check_allowed_appends _ _ _ _)
                        (fun _ => check_allowed_length _ _ _ _)). lia. }
        assert (H2 : (length (emitted (check_min rn c r v ;;; check_max rn c r v ;;;
                                      check_allowed rn c r v)) <= 3)%nat).
        { pose proof (length_emitted_bind (check_min rn c r v)
                        (fun _ => check_max rn c r v ;;; check_allowed rn c r v) 2
                        (check_min_appends _ _ _ _)
                        (fun _ => appends_bind _ _ (check_max_appends _ _ _ _)
                                    (fun _ => check_allowed_appends _ _ _ _))
                        (fun _ => H3)). lia. }
        pose proof (length_emitted_bind (check_type rn c r v)
                      (fun _ => check_min rn c r v ;;; check_max rn c r v ;;;
                                check_allowed rn c r v) 3
                      (check_type_appends _ _ _ _)
                      (fun _ => appends_bind _ _ (check_min_appends _ _ _ _)
                                  (fun _ => appends_bind _ _ (check_max_appends _ _ _ _)
                                              (fun _ => check_allowed_appends _ _ _ _)))
                      (fun _ => H2)). lia.
  - rewrite validate_cell_absent by assumption. cbn. lia.
Qed.

(** X3: the result of a run, also of a run that raised, has at most four
    records per cell, one for each check: at most four times the number of
    rows times the number of rules; a table without rows has none. *)
Theorem X3_result_size self d rules :
  df self = Some d ->
  (length (validation_results (fst (validate_data self rules))) <=
   4 * length rules * length (data d))%nat /\
  (data d = [] -> validation_results (fst (validate_data self rules)) = []).
Proof.
  intros Hd.
  assert (H : (length (validation_results (fst (validate_data self rules))) <=
               4 * length rules * length (data d))%nat).
  { rewrite (validate_data_run self d rules Hd). cbn [fst validation_results].
    replace (length (data d)) with (length (iterrows d)).
    - apply length_emitted_for_each; [apply validate_row_appends |].
      intros [j row] _. unfold validate_row.
      apply length_emitted_for_each; [apply validate_cell_appends |].
      intros item _. apply validate_cell_length.
    - apply length_iterrows. }
  split; [exact H |]. intros Hn. rewrite Hn in H. cbn in H.
  destruct (validation_results (fst (validate_data self rules))); [reflexivity |].
  cbn in H. lia.
Qed.

(** *** The two bounds *)

Lemma compare_Z_lt_le (x : PyFloat.float) (n n' : Z) :
  PyFloat.compare_Z x n = Some Lt -> n <= n' -> PyFloat.compare_Z x n' = Some Lt.
Proof.
  unfold PyFloat.compare_Z. destruct x as [s | s | | s m e]; intros H Hle;
    try assumption; try discriminate.
  - destruct (Z.compare_spec 0 n); try discriminate.
    f_equal. apply Z.compare_lt_iff. lia.
  - destruct (0 <=? e) eqn:He.
    + destruct (Z.compare_spec ((if s then Z.neg m else Z.pos m) * 2 ^ e) n);
        try discriminate.
      f_equal. apply Z.compare_lt_iff. lia.
    + destruct (Z.compare_spec (if s then Z.neg m else Z.pos m) (n * 2 ^ (- e)));
        try discriminate.
      f_equal. apply Z.compare_lt_iff.
      assert (0 < 2 ^ (- e)) by (apply Z.pow_pos_nonneg; lia). nia.
Qed.

(** X4: under a rule whose bounds are integers with [min <= max], the two
    range checks never both append a record for a cell: a value is not
    reported below the minimum and above the maximum. *)
Theorem X4_bounds_exclusive rn c r v n1 n2 :
  min r = Some (NInt n1) -> max r = Some (NInt n2) -> n1 <= n2 ->
  emitted (check_min rn c r v) = [] \/ emitted (check_max rn c r v) = [].
Proof.
  intros Hmin Hmax Hle. unfold check_min, check_max, emitted, bind, eval.
  rewrite Hmin, Hmax. destruct (float_ v) as [e | x]; [now left |].
  cbn [lt_num gt_num]. unfold PyFloat.ltb_Z, PyFloat.gtb_Z.
  destruct (PyFloat.compare_Z x n1) as [[| |] |] eqn:E1; try (now left).
  rewrite (compare_Z_lt_le x n1 n2 E1 Hle). now right.
Qed.

(** *** The numeric check on integer cells *)

Lemma is_digit_of_nat (k : nat) :
  (k < 10)%nat -> PyStr.is_digit (ascii_of_nat (48 + k)) = true.
Proof.
  intros H. do 10 (destruct k as [| k]; [reflexivity |]). lia.
Qed.

Lemma digits_of_pos_digits (fuel : nat) :
  forall n acc,
    0 <= n -> PyStr.forallb PyStr.is_digit acc = true ->
    PyStr.forallb PyStr.is_digit (PyStr.digits_of_pos fuel n acc) = true.
Proof.
  induction fuel as [| f IH]; intros n acc Hn Hacc; cbn [PyStr.digits_of_pos].
  - exact Hacc.
  - assert (Hd : PyStr.forallb PyStr.is_digit
                   (String (ascii_of_nat (48 + Z.to_nat (n mod 10))) acc) = true).
    { cbn [PyStr.forallb]. rewrite Hacc, andb_true_r. apply is_digit_of_nat.
      pose proof (Z.mod_pos_bound n 10). lia. }
    destruct (n <? 10); [exact Hd |]. apply IH; [| exact Hd].
    apply Z.div_pos; lia.
Qed.

Lemma digits_of_pos_nonempty (fuel : nat) (n : Z) (acc : string) :
  PyStr.digits_of_pos (S fuel) n acc <> EmptyString.
Proof.
  revert n acc. induction fuel as [| f IH]; intros n acc.
  - cbn. destruct (n <? 10); discriminate.
  - cbn [PyStr.digits_of_pos]. destruct (n <? 10); [discriminate | apply IH].
Qed.

Lemma remove_all_digits (s : string) :
  PyStr.forallb PyStr.is_digit s = true -> PyStr.remove_all "." s = s.
Proof.
  induction s as [| a s IH]; [reflexivity |]. cbn [PyStr.forallb PyStr.remove_all].
  intros H. apply andb_true_iff in H. destruct H as [Ha Hs].
  destruct (Ascii.eqb_spec a "."%char) as [-> | _]; [discriminate |].
  now rewrite IH.
Qed.

(** X5: an integer cell passes the numeric check exactly when it is not
    negative: no negative integer is numeric for the check. *)
Theorem X5_numeric_integer_cells (n : Z) : is_numeric (VInt n) = (0 <=? n).
Proof.
  unfold is_numeric. cbn [str]. rewrite replace_point. destruct n as [| p | p].
  - reflexivity.
  - cbn [PyStr.of_Z]. rewrite remove_all_digits
      by (apply digits_of_pos_digits; [lia | reflexivity]).
    unfold PyStr.isdigit.
    destruct (PyStr.digits_of_pos (S (Z.to_nat (Z.log2 (Z.pos p)))) (Z.pos p) EmptyString)
      eqn:E.
    + exfalso. now apply digits_of_pos_nonempty in E.
    + rewrite <- E. apply digits_of_pos_digits; [lia | reflexivity].
  - reflexivity.
Qed.

(** *** The numeric check and [float] on strings *)











End GenericRuns.

(** *** The phone check *)

Section Phone.
Import ExcelValidator.



End Phone.

(** * Further properties of the pricing and tax checks *)

Section DomainRuns.
Import EcommerceValidator.

Lemma nodup_block (a : Z) (l1 l2 : list Z) :
  Forall (fun y => y = a) l1 -> Forall (fun y => y <> a) l2 ->
  length (nodup Z.eq_dec (l1 ++ l2)) =
  ((match l1 with [] => 0 | _ :: _ => 1 end) + length (nodup Z.eq_dec l2))%nat.
Proof.
  intros H1 H2. induction H1 as [| x l1 Hx H1 IH]; [reflexivity |]. subst x.
  cbn [app nodup]. destruct (in_dec Z.eq_dec a (l1 ++ l2)) as [Hin | Hnin].
  - rewrite IH. destruct l1 as [| y l1]; [| reflexivity].
    cbn in Hin. exfalso. rewrite Forall_forall in H2. now apply (H2 a).
  - destruct l1 as [| y l1]; [reflexivity |].
    exfalso. apply Hnin. left. now inversion H1.
Qed.

Lemma rows_from (k : Z) (l : list Series) :
  Forall (fun y => k + 2 <= y)
         (map Row (flat_map (fun item => emitted (validate_row item)) (enumerate_from k l))).
Proof.
  revert k. induction l as [| x l IH]; intros k; cbn [enumerate_from flat_map map].
  - constructor.
  - rewrite map_app. apply Forall_app. split.
    + apply Forall_map. eapply Forall_impl; [| apply validate_row_tagged].
      intros rec Hr. cbn in Hr. lia.
    + eapply Forall_impl; [| apply (IH (k + 1))]. intros y Hy. cbn in Hy. lia.
Qed.

(** The number of distinct row numbers in the errors is the number of rows
    that have a record. *)
Lemma distinct_rows_from (k : Z) (l : list Series) :
  length (nodup Z.eq_dec
            (map Row (flat_map (fun item => emitted (validate_row item))
                               (enumerate_from k l)))) =
  length (filter has_errors (enumerate_from k l)).
Proof.
  revert k. induction l as [| x l IH]; intros k; cbn [enumerate_from flat_map filter].
  - reflexivity.
  - rewrite map_app, (nodup_block (k + 2)).
    + rewrite IH. unfold has_errors at 2.
      destruct (emitted (validate_row (k, x))); reflexivity.
    + apply Forall_map. eapply Forall_impl; [| apply validate_row_tagged].
      intros rec Hr. exact Hr.
    + eapply Forall_impl; [| apply (rows_from (k + 1))]. intros y Hy. cbn in Hy. lia.
Qed.

Lemma distinct_rows_count (d : DataFrame) :
  distinct_rows (row_errors d) = rows_with_errors d.
Proof.
  unfold distinct_rows, rows_with_errors, row_errors, iterrows.
  now rewrite distinct_rows_from.
Qed.

(** X8: with a table loaded, [validate] returns normally with a summary in
    which the total is the number of rows of the table, the invalid rows
    are the rows that have at least one record, and the valid rows are the
    others: the two counts are not negative and add up to the total. *)
Theorem X8_summary_counts self d :
  df self = Some d ->
  exists sm,
    snd (validate self) = inr tt /\
    summary (fst (validate self)) = Some sm /\
    Total_Rows sm = Z.of_nat (length (data d)) /\
    Invalid_Rows sm = rows_with_errors d /\
    Valid_Rows sm = Z.of_nat (length (filter (fun item => negb (has_errors item))
                                             (iterrows d))) /\
    Valid_Rows sm + Invalid_Rows sm = Total_Rows sm /\
    0 <= Valid_Rows sm /\ 0 <= Invalid_Rows sm.
Proof.
  intros Hd. rewrite (validate_run self d Hd). cbn [fst snd summary].
  eexists. split; [reflexivity |]. split; [reflexivity |].
  cbn [Total_Rows Valid_Rows Invalid_Rows]. rewrite distinct_rows_count.
  unfold rows_with_errors. rewrite <- (length_iterrows d).
  assert (E : (length (iterrows d) =
               length (filter has_errors (iterrows d)) +
               length (filter (fun item => negb (has_errors item)) (iterrows d)))%nat).
  { induction (iterrows d) as [| x l IH]; [reflexivity |]. cbn [filter].
    destruct (has_errors x); cbn; lia. }
  repeat split; lia.
Qed.

Lemma validate_row_length (item : Z * Series) :
  (length (emitted (validate_row item)) <= 2)%nat.
Proof.
  destruct item as [i row]. destruct (parsed row) as [e | [[[m p] sp] t]] eqn:E.
  - destruct (validate_row_failed i row e E) as [-> _]. cbn. lia.
  - destruct (validate_row_parsed i row m p sp t E) as [-> _].
    rewrite length_app. unfold price_records, tax_records.
    destruct (PyFloat.geb m p); destruct (PyFloat.to_int _) as [| n];
      try destruct (n =? _); cbn; lia.
Qed.

Lemma sorted_block (a : Z) (l1 l2 : list Z) :
  Forall (fun y => y = a) l1 -> Forall (fun y => a <= y) l2 ->
  StronglySorted Z.le l2 -> StronglySorted Z.le (l1 ++ l2).
Proof.
  intros H1 H2 Hs. induction H1 as [| x l1 Hx H1 IH]; [exact Hs |]. subst x.
  cbn [app]. constructor; [exact IH |]. apply Forall_app. split; [| exact H2].
  eapply Forall_impl; [| exact H1]. intros y ->. lia.
Qed.

Lemma rows_sorted_from (k : Z) (l : list Series) :
  StronglySorted Z.le
    (map Row (flat_map (fun item => emitted (validate_row item)) (enumerate_from k l))).
Proof.
  revert k. induction l as [| x l IH]; intros k; cbn [enumerate_from flat_map map].
  - constructor.
  - rewrite map_app. apply (sorted_block (k + 2)).
    + apply Forall_map. eapply Forall_impl; [| apply validate_row_tagged].
      intros rec Hr. exact Hr.
    + eapply Forall_impl; [| apply (rows_from (k + 1))]. intros y Hy. cbn in Hy. lia.
    + apply IH.
Qed.

Lemma length_flat_map_le {A B : Type} (g : A -> list B) (l : list A) (b : nat) :
  (forall x, (length (g x) <= b)%nat) -> (length (flat_map g l) <= b * length l)%nat.
Proof.
  intros H. induction l as [| x l IH]; cbn; [lia |].
  rewrite length_app. specialize (H x). lia.
Qed.

(** X9: the errors that [validate] leaves are in the order of the rows
    (their row numbers never decrease, from 2 to the number of rows plus
    1), and a row has at most two of them. *)
Theorem X9_errors_in_row_order self d :
  df self = Some d ->
  StronglySorted Z.le (map Row (errors (fst (validate self)))) /\
  Forall (fun rec => 2 <= Row rec <= Z.of_nat (length (data d)) + 1)
         (errors (fst (validate self))) /\
  (length (errors (fst (validate self))) <= 2 * length (data d))%nat /\
  (forall rn, (length (filter (of_row rn) (errors (fst (validate self)))) <= 2)%nat).
Proof.
  intros Hd. rewrite (validate_run self d Hd). cbn [fst errors]. unfold row_errors.
  split; [apply rows_sorted_from |]. split; [| split].
  - apply Forall_flat_map. apply Forall_forall. intros [j row] Hin.
    eapply Forall_impl; [| apply validate_row_tagged].
    intros rec Hr. cbn in Hr. destruct (iterrows_index d j row Hin) as [Hj _]. lia.
  - rewrite <- (length_iterrows d). apply length_flat_map_le, validate_row_length.
  - intros rn. rewrite filter_flat_map.
    assert (H : forall l k,
               (length (flat_map (fun x => filter (of_row rn) (emitted (validate_row x)))
                                 (enumerate_from k l)) <= 2)%nat /\
               (rn < k + 2 ->
                flat_map (fun x => filter (of_row rn) (emitted (validate_row x)))
                         (enumerate_from k l) = [])).
    { induction l as [| x l IH]; intros k; cbn [enumerate_from flat_map].
      - split; [cbn; lia | reflexivity].
      - destruct (IH (k + 1)) as [IH1 IH2]. rewrite length_app.
        destruct (Z.eq_dec rn (k + 2)) as [-> | Hne].
        + rewrite IH2 by lia. split; [| lia]. cbn [length].
          pose proof (validate_row_length (k, x)).
          pose proof (filter_length_le (of_row (k + 2)) (emitted (validate_row (k, x)))).
          lia.
        + rewrite (filter_none (of_row rn) (emitted (validate_row (k, x)))).
          * split; [cbn; lia |]. intros Hlt. cbn. apply IH2. lia.
          * eapply Forall_impl; [| apply validate_row_tagged].
            intros rec Hr. unfold of_row. rewrite Hr. apply Z.eqb_neq. lia. }
    apply H.
Qed.

(** X10: when the table lacks one of the four columns that are read, every
    row has exactly one record, a 'Data Error', and the summary counts no
    valid row. *)
Theorem X10_missing_column_no_valid_row self d c :
  df self = Some d ->
  In c read_columns ->
  has_column d c = false ->
  (forall i cells,
      nth_error (data d) i = Some cells ->
      exists e,
        filter (of_row (Z.of_nat i + 2)) (errors (fst (validate self))) =
        [data_error (Z.of_nat i + 2) e]) /\
  length (errors (fst (validate self))) = length (data d) /\
  exists sm, summary (fst (validate self)) = Some sm /\
             Valid_Rows sm = 0 /\ Invalid_Rows sm = Z.of_nat (length (data d)).
Proof.
  intros Hd Hc Hmiss.
  assert (Hrow : forall j row, In (j, row) (iterrows d) ->
                   exists e, emitted (validate_row (j, row)) = [data_error (j + 2) e]).
  { intros j row Hin. pose proof (iterrows_labels d j row Hin) as Hl.
    assert (Hg : getitem row c = inl (KeyError c)).
    { unfold getitem. rewrite Hl. unfold has_column in Hmiss.
      destruct (index_of c (columns d)); [discriminate | reflexivity]. }
    destruct (parsed_some_failure row) as [e He].
    { unfold price, tax. cbn in Hc.
      destruct Hc as [<- | [<- | [<- | [<- | []]]]]; rewrite Hg; eauto 6. }
    exists e. now destruct (validate_row_failed j row e He) as [-> _]. }
  split; [| split].
  - intros i cells Hi. rewrite (records_of_row self d i cells Hd Hi).
    apply Hrow. now apply iterrows_In.
  - rewrite (validate_run self d Hd). cbn [fst errors]. unfold row_errors.
    rewrite <- (length_iterrows d).
    induction (iterrows d) as [| [j row] l IH]; [reflexivity |]. cbn [flat_map].
    destruct (Hrow j row (or_introl eq_refl)) as [e ->].
    cbn. f_equal. apply IH. intros j' row' Hin. apply Hrow. now right.
  - rewrite (validate_run self d Hd). cbn [fst summary]. eexists.
    split; [reflexivity |]. cbn [Valid_Rows Invalid_Rows].
    rewrite distinct_rows_count. unfold rows_with_errors.
    assert (E : filter has_errors (iterrows d) = iterrows d).
    { apply filter_all. apply Forall_forall. intros [j row] Hin. unfold has_errors.
      now destruct (Hrow j row Hin) as [e ->]. }
    rewrite E, length_iterrows. split; lia.
Qed.

(** X11: [validate] leaves no error exactly when, in every row, the four
    cells are converted, the MAP is not greater than or equal to the MRP,
    and the integer part of the tax rate is the expected tax. *)
Theorem X11_no_error_iff_rows_pass self d :
  df self = Some d ->
  errors (fst (validate self)) = [] <->
  (forall i cells,
      nth_error (data d) i = Some cells ->
      exists m p sp t,
        parsed {| labels := columns d; cells := cells |} = inr (m, p, sp, t) /\
        PyFloat.geb m p = false /\
        PyFloat.to_int (percent t) = inr (expected_tax sp)).
Proof.
  intros Hd.
  assert (Hrow : forall j row,
             emitted (validate_row (j, row)) = [] <->
             exists m p sp t,
               parsed row = inr (m, p, sp, t) /\ PyFloat.geb m p = false /\
               PyFloat.to_int (percent t) = inr (expected_tax sp)).
  { intros j row. destruct (parsed row) as [e | [[[m p] sp] t]] eqn:E.
    - destruct (validate_row_failed j row e E) as [-> _]. split; [discriminate |].
      intros (m & p & sp & t & H & _). discriminate.
    - destruct (validate_row_parsed j row m p sp t E) as [-> _].
      unfold price_records, tax_records. split.
      + intros H. exists m, p, sp, t. split; [reflexivity |].
        destruct (PyFloat.geb m p); [discriminate |]. split; [reflexivity |].
        destruct (PyFloat.to_int (percent t)) as [e | n]; [discriminate |].
        destruct (Z.eqb_spec n (expected_tax sp)); [now subst | discriminate].
      + intros (m' & p' & sp' & t' & H & Hg & Ht). inversion H; subst.
        rewrite Hg, Ht, Z.eqb_refl. reflexivity. }
  rewrite (validate_run self d Hd). cbn [fst errors]. unfold row_errors. split.
  - intros H i cells Hi. apply (Hrow (Z.of_nat i)).
    pose proof (iterrows_In d i cells Hi) as Hin.
    induction (iterrows d) as [| x l IH]; [contradiction |]. cbn [flat_map] in H.
    apply app_eq_nil in H. destruct H as [Hx Hl].
    destruct Hin as [-> | Hin]; [exact Hx | now apply IH].
  - intros H.
    assert (Hall : forall x, In x (iterrows d) -> emitted (validate_row x) = []).
    { intros [j row] Hin. apply Hrow.
      destruct (iterrows_index d j row Hin) as (_ & cells & Hn & ->). eauto. }
    induction (iterrows d) as [| x l IH]; [reflexivity |]. cbn [flat_map].
    rewrite (Hall x (or_introl eq_refl)). cbn. apply IH.
    intros y Hy. apply Hall. now right.
Qed.

(** X13: [validate_prices_and_tax] on its own does not reset the list: it
    returns normally and leaves the errors it found after those that were
    there, so a second call repeats the records of the first. *)
Theorem X13_prices_and_tax_appends self d :
  df self = Some d ->
  snd (validate_prices_and_tax self) = inr tt /\
  errors (fst (validate_prices_and_tax self)) = (errors self ++ row_errors d)%list /\
  errors (fst (validate_prices_and_tax (fst (validate_prices_and_tax self)))) =
    (errors self ++ row_errors d ++ row_errors d)%list.
Proof.
  intros Hd.
  assert (H : forall s, df s = Some d ->
                validate_prices_and_tax s =
                ({| df := Some d; errors := (errors s ++ row_errors d)%list;
                    summary := summary s |}, inr tt)).
  { intros s Hs. unfold validate_prices_and_tax. rewrite Hs.
    rewrite (appends_for_each (iterrows d) validate_row domain_row_appends (errors s)).
    destruct (for_each_normal (iterrows d) validate_row domain_row_appends
                (fun x _ => validate_row_outcome x)) as [-> ->].
    reflexivity. }
  rewrite (H self Hd). cbn [fst snd errors].
  rewrite (H {| df := Some d; errors := (errors self ++ row_errors d)%list;
                summary := summary self |} eq_refl).
  cbn [fst errors]. rewrite app_assoc. auto.
Qed.

Lemma inr_inj (a b : Z) : @inr exn Z a = inr b -> a = b.
Proof. congruence. Qed.

Lemma some_inj (a b : comparison) : Some a = Some b -> a = b.
Proof. congruence. Qed.

Ltac inj H := first [apply inr_inj in H | apply some_inj in H].

(** [int(x)] is the positive integer [n] exactly when [n <= x < n + 1]. *)
Lemma to_int_positive (x : PyFloat.float) (n : Z) :
  0 < n ->
  PyFloat.to_int x = inr n <-> PyFloat.at_least x n /\ PyFloat.below x (n + 1).
Proof.
  intros Hn. unfold PyFloat.at_least, PyFloat.below, PyFloat.to_int, PyFloat.compare_Z.
  destruct x as [s | s | | s m e].
  - split.
    + intros H. inj H. lia.
    + intros [[H | H] _]; destruct (Z.compare_spec 0 n); try discriminate; lia.
  - split; [discriminate |]. destruct s; intros [[H | H] H']; discriminate.
  - split; [discriminate |]. intros [[H | H] _]; discriminate.
  - assert (Hp : 0 < 2 ^ (- e) \/ 0 <= e) by
      (destruct (Z.leb_spec 0 e); [now right | left; apply Z.pow_pos_nonneg; lia]).
    assert (Hq : 0 <= e -> 0 < 2 ^ e) by (intros; apply Z.pow_pos_nonneg; lia).
    destruct s; cbv beta iota.
    + (* negative *)
      destruct (Z.leb_spec 0 e) as [He | He].
      * specialize (Hq He). split.
        -- intros H. inj H. nia.
        -- intros [[H | H] _]; inj H;
             [rewrite Z.compare_eq_iff in H | rewrite Z.compare_gt_iff in H]; nia.
      * assert (Hk : 0 < 2 ^ (- e)) by (apply Z.pow_pos_nonneg; lia). split.
        -- intros H. inj H.
           assert (0 <= Z.pos m / 2 ^ (- e)) by (apply Z.div_pos; lia). lia.
        -- intros [[H | H] _]; inj H;
             [rewrite Z.compare_eq_iff in H | rewrite Z.compare_gt_iff in H]; nia.
    + destruct (Z.leb_spec 0 e) as [He | He].
      * specialize (Hq He). split.
        -- intros H. inj H. split.
           ++ left. f_equal. apply Z.compare_eq_iff. exact H.
           ++ f_equal. apply Z.compare_lt_iff. lia.
        -- intros [[H | H] H']; inj H; inj H'.
           ++ rewrite Z.compare_eq_iff in H. now rewrite H.
           ++ rewrite Z.compare_gt_iff in H. rewrite Z.compare_lt_iff in H'. f_equal. lia.
      * assert (Hk : 0 < 2 ^ (- e)) by (apply Z.pow_pos_nonneg; lia).
        pose proof (Z.div_mod (Z.pos m) (2 ^ (- e)) ltac:(lia)) as Hdm.
        pose proof (Z.mod_pos_bound (Z.pos m) (2 ^ (- e)) Hk) as Hmb.
        split.
        -- intros H. inj H. split.
           ++ destruct (Z.compare_spec (Z.pos m) (n * 2 ^ (- e))); [now left | | now right].
              exfalso. nia.
           ++ f_equal. apply Z.compare_lt_iff. nia.
        -- intros [H H']. inj H'. rewrite Z.compare_lt_iff in H'. f_equal.
           assert (Hge : n * 2 ^ (- e) <= Z.pos m).
           { destruct H as [H | H]; inj H;
               [rewrite Z.compare_eq_iff in H | rewrite Z.compare_gt_iff in H]; lia. }
           nia.
Qed.

(** X12: the tax check ignores the decimals of the rate: for a tax rate
    that is not below 1 (so it is not multiplied by 100), the integer part
    of the rate is the expected tax exactly when the rate is at least the
    expected tax and below the expected tax plus one. *)
Theorem X12_tax_decimals_ignored (t sp : PyFloat.float) :
  PyFloat.ltb_Z t 1 = false ->
  PyFloat.to_int (percent t) = inr (expected_tax sp) <->
  PyFloat.at_least t (expected_tax sp) /\ PyFloat.below t (expected_tax sp + 1).
Proof.
  intros Ht. unfold percent. rewrite Ht. apply to_int_positive.
  unfold expected_tax. destruct (PyFloat.gtb_Z sp 999); lia.
Qed.
End DomainRuns.

(** * The console program *)

Section ConsoleProgram.
Import ExcelValidator.
Variable read_excel : string -> exn + DataFrame.
Variable tabulate : list record -> string.

(** Under the rules of [main], only 'Age' has bounds. *)
Lemma bounded_rule_is_age c r :
  In (c, r) validation_rules -> min r <> None \/ max r <> None -> c = "Age"%string.
Proof.
  cbn. intros [H | [H | [H | [H | []]]]] [Hb | Hb]; inversion H; subst;
    try reflexivity; now contradiction Hb.
Qed.

(** X14: [main] ends with an exception exactly when the file is read and
    the table has a column 'Age' with a cell that is not empty and that
    [float] refuses; it has then written the prompt and the message of the
    load only: no result of the run is displayed.  When the file is not
    read, [main] writes the prompt and the error of the load, validates
    nothing and ends normally. *)
Theorem X14_main_outcome (file_path : string) :
  ((exists e, snd (main read_excel tabulate file_path) = inl e) <->
   (exists d i cells v e,
       read_excel file_path = inr d /\ nth_error (data d) i = Some cells /\
       has_column d "Age" = true /\
       getitem {| labels := columns d; cells := cells |} "Age" = inr v /\
       isna v = false /\ float_ v = inl e)) /\
  (forall e, snd (main read_excel tabulate file_path) = inl e ->
     exists d,
       read_excel file_path = inr d /\
       fst (main read_excel tabulate file_path) =
       [prompt;
        print ("Successfully loaded Excel file with "
               ++ PyStr.of_Z (Z.of_nat (length (data d))) ++ " rows")]) /\
  (forall e, read_excel file_path = inl e ->
     main read_excel tabulate file_path =
     ([prompt; print ("Error loading file: " ++ str_exn e)], inr tt)).
Proof.
  unfold main, load_excel. destruct (read_excel file_path) as [e0 | d] eqn:Hread.
  - cbn. split; [| split].
    + split; [intros [e H]; discriminate |].
      intros (d & i & cells & v & e & H & _). discriminate.
    + intros e H. discriminate.
    + intros e H. inversion H. reflexivity.
  - cbn [init validation_results].
    pose proof (validate_data_normal_iff {| validation_results := []; df := Some d |}
                  d validation_rules eq_refl) as Hiff.
    destruct (validate_data {| validation_results := []; df := Some d |} validation_rules)
      as [v2 [e | []]] eqn:Hrun; cbn [fst snd] in *.
    + split; [| split].
      * split; [| eauto]. intros _.
        (* the run raised: some body raised, on a cell that [float] refuses *)
        rewrite (validate_data_run {| validation_results := []; df := Some d |}
                   d validation_rules eq_refl) in Hrun.
        injection Hrun as _ Hout.
        destruct (for_each_raises_inv (iterrows d) (validate_row d validation_rules)
                    (validate_row_appends d validation_rules) e Hout)
          as ([j row] & Hin & Hrow).
        unfold validate_row in Hrow.
        destruct (for_each_raises_inv validation_rules _
                    (validate_cell_appends d (j + 2) row) e Hrow)
          as ([c r] & Hr & Hcell).
        destruct (validate_cell_fault d (j + 2) row c r e (iterrows_labels d j row Hin) Hcell)
          as (v & Hv & Hna & He & Hb).
        destruct (iterrows_index d j row Hin) as (_ & cells & Hn & ->).
        pose proof (bounded_rule_is_age c r Hr Hb). subst c.
        exists d, (Z.to_nat j), cells, v, e. repeat split; auto.
        unfold has_column. unfold getitem in Hv. cbn [labels] in Hv.
        destruct (index_of "Age" (columns d)); [reflexivity | discriminate].
      * intros e' _. exists d. split; reflexivity.
      * intros e' H. discriminate.
    + split; [| split].
      * split; [intros [e H]; discriminate |].
        intros (d' & i & cells & v & e & Hd & Hi & Hc & Hv & Hna & He). exfalso.
        inversion Hd; subst d'.
        assert (Hall : forall i cells c r v,
                   nth_error (data d) i = Some cells -> In (c, r) validation_rules ->
                   has_column d c = true ->
                   getitem {| labels := columns d; cells := cells |} c = inr v ->
                   isna v = false -> min r <> None \/ max r <> None ->
                   exists x, float_ v = inr x) by (now apply Hiff).
        destruct (Hall i cells "Age"%string age_rule v Hi) as [x Hx]; auto.
        -- cbn. auto.
        -- left. discriminate.
        -- congruence.
      * intros e H. discriminate.
      * intros e H. discriminate.
Qed.
End ConsoleProgram.

(** * Further edge cases *)

Section EdgeCases.
Import ExcelValidator.

(** X15: the list validation compares exactly: under a rule whose allowed
    values are strings, a string cell has no record exactly when it is one
    of the listed strings, and an integer cell always has one. *)
Theorem X15_allowed_values_exact rn c r (l : list string) :
  allowed_values r = Some (map VStr l) ->
  (forall s, emitted (check_allowed rn c r (VStr s)) = [] <-> In s l) /\
  (forall n, emitted (check_allowed rn c r (VInt n)) =
             [not_allowed rn c (VInt n) (map VStr l)]).
Proof.
  intros Hr. unfold check_allowed. rewrite Hr. split.
  - intros s. unfold py_in.
    destruct (existsb (py_eq (VStr s)) (map VStr l)) eqn:E; cbn [negb]; split.
    + intros _. apply existsb_exists in E. destruct E as (v & Hin & Heq).
      apply in_map_iff in Hin. destruct Hin as (t & <- & Hin).
      cbn in Heq. apply String.eqb_eq in Heq. now subst.
    + reflexivity.
    + discriminate.
    + intros Hin. exfalso.
      assert (existsb (py_eq (VStr s)) (map VStr l) = true).
      { apply existsb_exists. exists (VStr s). split; [now apply in_map |].
        cbn. apply String.eqb_refl. }
      congruence.
  - intros n. unfold py_in.
    assert (E : existsb (py_eq (VInt n)) (map VStr l) = false).
    { clear Hr. induction l as [| t l IH]; [reflexivity |]. cbn. exact IH. }
    now rewrite E.
Qed.

Lemma check_type_unknown rn c r ty v :
  type r = Some ty ->
  ty <> "email"%string -> ty <> "phone"%string -> ty <> "numeric"%string ->
  check_type rn c r v = pass.
Proof.
  intros Ht H1 H2 H3. unfold check_type. rewrite Ht.
  apply String.eqb_neq in H1, H2, H3. now rewrite H1, H2, H3.
Qed.

(** X16: a ['type'] that is none of 'email', 'phone' and 'numeric' is not
    checked and not reported: in a run that ends normally, a cell that is
    not empty, under a rule with such a type and no other key, has no
    record. *)
Theorem X16_unknown_type_unchecked self d rules i cells c r ty v :
  df self = Some d ->
  NoDup (map fst rules) ->
  snd (validate_data self rules) = inr tt ->
  nth_error (data d) i = Some cells ->
  In (c, r) rules ->
  has_column d c = true ->
  getitem {| labels := columns d; cells := cells |} c = inr v ->
  isna v = false ->
  type r = Some ty ->
  ty <> "email"%string -> ty <> "phone"%string -> ty <> "numeric"%string ->
  min r = None -> max r = None -> allowed_values r = None ->
  filter (of_cell (Z.of_nat i + 2) c)
         (validation_results (fst (validate_data self rules))) = [].
Proof.
  intros Hd Hnd Ho Hi Hin Hc Hv Hna Ht H1 H2 H3 Hmin Hmax Hal.
  rewrite (records_of_cell self d rules i cells c r Hd Hnd Ho Hi Hin).
  rewrite (validate_cell_present d _ _ c r v Hc Hv Hna).
  rewrite (check_type_unknown _ c r ty v Ht H1 H2 H3).
  unfold check_min, check_max, check_allowed. now rewrite Hmin, Hmax, Hal.
Qed.
End EdgeCases.

Section EmptyPriceCells.
Import EcommerceValidator.

Lemma tax_of_empty row : getitem row "Tax Rate" = inr NaN -> tax row = inr S754_nan.
Proof. intros H. unfold tax. rewrite H. reflexivity. Qed.

Lemma price_of_empty row c : getitem row c = inr NaN -> price row c = inr S754_nan.
Proof. intros H. unfold price. rewrite H. reflexivity. Qed.

Lemma geb_nan_l (p : PyFloat.float) : PyFloat.geb S754_nan p = false.
Proof. unfold PyFloat.geb, SFleb. now destruct p. Qed.

Lemma geb_nan_r (m : PyFloat.float) : PyFloat.geb m S754_nan = false.
Proof. unfold PyFloat.geb, SFleb. now destruct m. Qed.

(** X17: empty cells are read as the NaN float, not refused.  A row with
    an empty tax cell, whose three prices are converted, has its 'Price
    Error' record if any, followed by a 'Data Error' for the integer part
    of NaN; a row with an empty MAP or MRP cell, whose other cells are
    converted, has no 'Price Error' record. *)
Theorem X17_empty_cells self d i cells :
  df self = Some d ->
  nth_error (data d) i = Some cells ->
  (forall m p sp,
      price {| labels := columns d; cells := cells |} "MAP" = inr m ->
      price {| labels := columns d; cells := cells |} "MRP (O)" = inr p ->
      price {| labels := columns d; cells := cells |} "Sale Price (inc tax)" = inr sp ->
      getitem {| labels := columns d; cells := cells |} "Tax Rate" = inr NaN ->
      filter (of_row (Z.of_nat i + 2)) (errors (fst (validate self))) =
      (price_records (Z.of_nat i + 2) m p ++
       [data_error (Z.of_nat i + 2)
          (ValueError "cannot convert float NaN to integer")])%list) /\
  (forall m p sp t,
      parsed {| labels := columns d; cells := cells |} = inr (m, p, sp, t) ->
      getitem {| labels := columns d; cells := cells |} "MAP" = inr NaN \/
      getitem {| labels := columns d; cells := cells |} "MRP (O)" = inr NaN ->
      filter (of_row_type (Z.of_nat i + 2) "Price Error")
             (errors (fst (validate self))) = []).
Proof.
  intros Hd Hi. split.
  - intros m p sp H1 H2 H3 Ht. rewrite (records_of_row self d i cells Hd Hi).
    destruct (validate_row_parsed (Z.of_nat i) _ m p sp S754_nan
                (parsed_all _ _ _ _ _ H1 H2 H3 (tax_of_empty _ Ht))) as [-> _].
    reflexivity.
  - intros m p sp t Hp Hnan. rewrite (records_of_row_type self d i cells _ Hd Hi).
    destruct (validate_row_parsed (Z.of_nat i) _ m p sp t Hp) as [-> _].
    assert (Hg : PyFloat.geb m p = false).
    { unfold parsed in Hp.
      destruct (price _ "MAP") as [| m'] eqn:E1; [discriminate |].
      destruct (price _ "MRP (O)") as [| p'] eqn:E2; [discriminate |].
      destruct (price _ "Sale Price (inc tax)") as [| sp']; [discriminate |].
      destruct (tax _) as [| t']; [discriminate |]. inversion Hp; subst.
      destruct Hnan as [Hn | Hn].
      - rewrite (price_of_empty _ _ Hn) in E1. inversion E1. apply geb_nan_l.
      - rewrite (price_of_empty _ _ Hn) in E2. inversion E2. apply geb_nan_r. }
    rewrite filter_app. unfold price_records, tax_records. rewrite Hg.
    destruct (PyFloat.to_int (percent t)) as [e | n];
      try destruct (n =? expected_tax sp); reflexivity.
Qed.
End EmptyPriceCells.

(** * The further properties at concrete tables *)

(** X1 at the table with the ages "abc" and 5 under the rules of [main]. *)
Lemma X1_witness :
  snd (ExcelValidator.validate_data (Examples.loaded Examples.two_ages)
         ExcelValidator.validation_rules) = inr tt <->
  (forall i cells c r v,
      nth_error (data Examples.two_ages) i = Some cells ->
      In (c, r) ExcelValidator.validation_rules ->
      has_column Examples.two_ages c = true ->
      getitem {| labels := columns Examples.two_ages; cells := cells |} c = inr v ->
      isna v = false ->
      ExcelValidator.min r <> None \/ ExcelValidator.max r <> None ->
      exists x, float_ v = inr x).
Proof.
  apply (X1_normal_iff_cells_convert (Examples.loaded Examples.two_ages)
           Examples.two_ages ExcelValidator.validation_rules).
  reflexivity.
Defined.

Lemma X2_witness :
  Forall (fun rec => 2 <= ExcelValidator.Row rec <= 3 /\
                     In (ExcelValidator.Column rec)
                        (map fst ExcelValidator.validation_rules))
         (ExcelValidator.validation_results
            (fst (ExcelValidator.validate_data (Examples.loaded Examples.two_ages)
                    ExcelValidator.validation_rules))).
Proof.
  apply (X2_records_within_table (Examples.loaded Examples.two_ages)
           Examples.two_ages ExcelValidator.validation_rules).
  reflexivity.
Defined.

Lemma X3_witness :
  (length (ExcelValidator.validation_results
             (fst (ExcelValidator.validate_data (Examples.loaded Examples.two_ages)
                     ExcelValidator.validation_rules))) <= 4 * 4 * 2)%nat.
Proof.
  apply (proj1 (X3_result_size (Examples.loaded Examples.two_ages)
                  Examples.two_ages ExcelValidator.validation_rules eq_refl)).
Defined.

(** X4 at the age 150 under the rule of 'Age'. *)
Lemma X4_witness :
  emitted (ExcelValidator.check_min 2 "Age" ExcelValidator.age_rule (VInt 150)) = [] \/
  emitted (ExcelValidator.check_max 2 "Age" ExcelValidator.age_rule (VInt 150)) = [].
Proof.
  apply (X4_bounds_exclusive 2 "Age" ExcelValidator.age_rule (VInt 150) 0 120).
  - reflexivity.
  - reflexivity.
  - lia.
Defined.



Lemma X8_witness :
  exists sm,
    snd (EcommerceValidator.validate (Examples.uploaded Examples.two_prices)) = inr tt /\
    EcommerceValidator.summary
      (fst (EcommerceValidator.validate (Examples.uploaded Examples.two_prices))) = Some sm /\
    EcommerceValidator.Total_Rows sm = 2 /\
    EcommerceValidator.Invalid_Rows sm =
      EcommerceValidator.rows_with_errors Examples.two_prices /\
    EcommerceValidator.Valid_Rows sm =
      Z.of_nat (length (filter (fun item => negb (EcommerceValidator.has_errors item))
                               (iterrows Examples.two_prices))) /\
    EcommerceValidator.Valid_Rows sm + EcommerceValidator.Invalid_Rows sm =
      EcommerceValidator.Total_Rows sm /\
    0 <= EcommerceValidator.Valid_Rows sm /\ 0 <= EcommerceValidator.Invalid_Rows sm.
Proof.
  apply (X8_summary_counts (Examples.uploaded Examples.two_prices) Examples.two_prices).
  reflexivity.
Defined.

Lemma X9_witness :
  StronglySorted Z.le
    (map EcommerceValidator.Row
       (EcommerceValidator.errors
          (fst (EcommerceValidator.validate (Examples.uploaded Examples.two_prices))))).
Proof.
  apply (proj1 (X9_errors_in_row_order (Examples.uploaded Examples.two_prices)
                  Examples.two_prices eq_refl)).
Defined.

Lemma X10_witness :
  length (EcommerceValidator.errors
            (fst (EcommerceValidator.validate (Examples.uploaded Examples.no_tax_column))))
  = 1%nat.
Proof.
  apply (proj1 (proj2 (X10_missing_column_no_valid_row
                         (Examples.uploaded Examples.no_tax_column)
                         Examples.no_tax_column "Tax Rate" eq_refl
                         (or_intror (or_intror (or_intror (or_introl eq_refl))))
                         eq_refl))).
Defined.

Lemma X11_witness :
  EcommerceValidator.errors
    (fst (EcommerceValidator.validate (Examples.uploaded Examples.two_prices))) = [] <->
  (forall i cells,
      nth_error (data Examples.two_prices) i = Some cells ->
      exists m p sp t,
        EcommerceValidator.parsed
          {| labels := columns Examples.two_prices; cells := cells |} = inr (m, p, sp, t) /\
        PyFloat.geb m p = false /\
        PyFloat.to_int (EcommerceValidator.percent t) =
          inr (EcommerceValidator.expected_tax sp)).
Proof.
  apply (X11_no_error_iff_rows_pass (Examples.uploaded Examples.two_prices)
           Examples.two_prices).
  reflexivity.
Defined.

(** X12 at the tax rate 18 for the sale price 1200. *)
Lemma X12_witness :
  PyFloat.to_int (EcommerceValidator.percent (PyFloat.of_Z 18)) =
    inr (EcommerceValidator.expected_tax (PyFloat.of_Z 1200)) <->
  PyFloat.at_least (PyFloat.of_Z 18) (EcommerceValidator.expected_tax (PyFloat.of_Z 1200)) /\
  PyFloat.below (PyFloat.of_Z 18) (EcommerceValidator.expected_tax (PyFloat.of_Z 1200) + 1).
Proof.
  apply (X12_tax_decimals_ignored (PyFloat.of_Z 18) (PyFloat.of_Z 1200)).
  vm_compute. reflexivity.
Defined.

Lemma X13_witness :
  EcommerceValidator.errors
    (fst (EcommerceValidator.validate_prices_and_tax
            (Examples.uploaded Examples.two_prices))) =
  ([] ++ EcommerceValidator.row_errors Examples.two_prices)%list.
Proof.
  apply (proj1 (proj2 (X13_prices_and_tax_appends (Examples.uploaded Examples.two_prices)
                         Examples.two_prices eq_refl))).
Defined.

(** X14 for a file that holds the table with the ages "abc" and 5. *)
Lemma X14_witness :
  exists d,
    Examples.reads_two_ages "book.xlsx" = inr d /\
    fst (ExcelValidator.main Examples.reads_two_ages Examples.blank_table "book.xlsx") =
    [ExcelValidator.prompt;
     ExcelValidator.print ("Successfully loaded Excel file with "
                           ++ PyStr.of_Z (Z.of_nat (length (data d))) ++ " rows")].
Proof.
  apply (proj1 (proj2 (X14_main_outcome Examples.reads_two_ages Examples.blank_table
                         "book.xlsx"))
           (ValueError "could not convert string to float: 'abc'")).
  vm_compute. reflexivity.
Defined.

(** X15 at the rule of 'Status'. *)
Lemma X15_witness :
  (forall s, emitted (ExcelValidator.check_allowed 2 "Status" ExcelValidator.status_rule
                        (VStr s)) = [] <->
             In s ["Active"; "Inactive"; "Pending"]) /\
  (forall n, emitted (ExcelValidator.check_allowed 2 "Status" ExcelValidator.status_rule
                        (VInt n)) =
             [ExcelValidator.not_allowed 2 "Status" (VInt n)
                (map VStr ["Active"; "Inactive"; "Pending"])]).
Proof.
  apply (X15_allowed_values_exact 2 "Status" ExcelValidator.status_rule
           ["Active"; "Inactive"; "Pending"]).
  reflexivity.
Defined.

Lemma X16_witness :
  filter (ExcelValidator.of_cell 2 "Zip")
         (ExcelValidator.validation_results
            (fst (ExcelValidator.validate_data
                    (Examples.loaded {| columns := ["Zip"]; data := [[VStr "abc"]] |})
                    [("Zip", Examples.zip_rule)]))) = [].
Proof.
  apply (X16_unknown_type_unchecked
           (Examples.loaded {| columns := ["Zip"]; data := [[VStr "abc"]] |})
           {| columns := ["Zip"]; data := [[VStr "abc"]] |}
           [("Zip", Examples.zip_rule)] 0 [VStr "abc"] "Zip" Examples.zip_rule
           "zipcode" (VStr "abc")); try reflexivity; try discriminate.
  - distinct_keys.
  - cbn. auto.
Defined.

(** X17 at a row with an empty tax cell and a MAP above the MRP. *)
Lemma X17_witness :
  filter (EcommerceValidator.of_row 2)
         (EcommerceValidator.errors
            (fst (EcommerceValidator.validate
                    (Examples.uploaded (Examples.prices [[VInt 300; VInt 200; VInt 1200; NaN]])))))
  = (EcommerceValidator.price_records 2 (PyFloat.of_Z 300) (PyFloat.of_Z 200) ++
     [EcommerceValidator.data_error 2
        (ValueError "cannot convert float NaN to integer")])%list.
Proof.
  apply (proj1 (X17_empty_cells
                  (Examples.uploaded (Examples.prices [[VInt 300; VInt 200; VInt 1200; NaN]]))
                  (Examples.prices [[VInt 300; VInt 200; VInt 1200; NaN]])
                  0 [VInt 300; VInt 200; VInt 1200; NaN] eq_refl eq_refl)
           (PyFloat.of_Z 300) (PyFloat.of_Z 200) (PyFloat.of_Z 1200)).
  all: vm_compute; reflexivity.
Defined.
